(** * PhloxAR line scans: a shallow embedding of [PhloxAR/linescan.py]

    [LineScan] is a Python 2 list subclass that carries the provenance of a
    one-dimensional signal (image, end points, channel, pixel locations).
    The embedding keeps the shape of the source: a method call either
    returns a value or raises, [None] results are an [option], the keyword
    arguments of the constructor are an association list that is filtered
    against the instance dictionary, and slices follow Python's index
    adjustment rules.

    Numbers are idealised: Python ints, Python floats and numpy scalars are
    exact values of an ordered field extended by the IEEE specials
    ([inf], [-inf], [nan]); rounding and the int/float distinction are not
    modelled. *)

From Stdlib Require Import ZArith QArith Reals Lra Lia.
From stdpp Require Import base gmap strings list.

Set Default Proof Using "Type".
Open Scope Z_scope.

(** ** Outcomes of a method call *)

Inductive exn : Set :=
  | ZeroDivisionError
  | ValueError
  | IndexError
  | TypeError
  | UnboundLocalError.

Inductive result (A : Type) : Type :=
  | Return (a : A)
  | Raise (e : exn).
Arguments Return {A} a.
Arguments Raise {A} e.

#[global] Instance result_ret : MRet result := @Return.
#[global] Instance result_bind : MBind result := λ A B f m,
  match m with
  | Return a => f a
  | Raise e => Raise e
  end.

(** A [for] loop whose body may raise: the state is threaded from left to
    right and the first exception ends the loop. *)
Fixpoint for_each {A S : Type} (body : S → A → result S) (s : S) (l : list A)
  : result S :=
  match l with
  | [] => Return s
  | x :: l' => s' ← body s x; for_each body s' l'
  end.

(** ** Python sequences *)

Module Py.

(** [len(l)] *)
Definition len {A} (l : list A) : Z := Z.of_nat (length l).

(** [range(a, b)] *)
Definition range (a b : Z) : list Z := seqZ a (b - a).

(** [enumerate(l)] *)
Definition enumerate {A} (l : list A) : list (Z * A) :=
  zip (range 0 (len l)) l.

(** Adjustment of one bound of a slice of step 1 to a sequence of
    length [n]: a negative bound counts from the end, then the bound is
    clipped to [0, n]. *)
Definition adjust (n i : Z) : Z :=
  if (i <? 0)%Z then Z.max 0 (i + n) else Z.min i n.

(** [l[start:stop]]; [None] is an omitted bound. *)
Definition slice {A} (l : list A) (start stop : option Z) : list A :=
  let n := len l in
  let a := from_option (adjust n) 0%Z start in
  let b := from_option (adjust n) n stop in
  take (Z.to_nat (b - a)) (drop (Z.to_nat a) l).

(** [l[i]] on a list: negative indices count from the end, anything
    outside [-len(l), len(l)) raises [IndexError]. *)
Definition index {A} (l : list A) (i : Z) : result A :=
  let j := if (i <? 0)%Z then (i + len l)%Z else i in
  if (j <? 0)%Z then Raise IndexError
  else match l !! Z.to_nat j with
       | Some x => Return x
       | None => Raise IndexError
       end.

(** [[x] * n] *)
Definition repeat {A} (x : A) (n : Z) : list A := replicate (Z.to_nat n) x.

End Py.

(** ** Numbers *)

(** The operations the line scan code applies to its samples. [true_div]
    is numpy's division, which is total (a zero divisor yields an
    infinity or [nan]); [is_zero] is the test that makes Python's own
    division raise. [as_index] is [__index__]: it is defined on integers
    only. *)
Class Num (V : Type) := {
  of_Z : Z → V;
  nan : V;
  neg_inf : V;
  add : V → V → V;
  sub : V → V → V;
  mul : V → V → V;
  true_div : V → V → V;
  is_zero : V → bool;
  is_nan : V → bool;
  lt : V → V → bool;
  as_index : V → option Z
}.

(** [numpy.exp] *)
Class Exp (V : Type) := exp : V → V.

(** The finite values: an ordered field with decidable comparisons. *)
Class Field (F : Type) := {
  f_of_Z : Z → F;
  f_add : F → F → F;
  f_sub : F → F → F;
  f_mul : F → F → F;
  f_div : F → F → F;
  f_ltb : F → F → bool;
  f_eqb : F → F → bool;
  f_to_Z : F → option Z
}.

(** A number is a finite value or one of the IEEE specials. *)
Inductive num (F : Type) : Type :=
  | Fin (x : F)
  | PInf
  | NInf
  | NaN.
Arguments Fin {F} x.
Arguments PInf {F}.
Arguments NInf {F}.
Arguments NaN {F}.

Module IEEE.
Section ops.
Context {F : Type} `{Field F}.

Definition zero : F := f_of_Z 0.
Definition is_pos (x : F) : bool := f_ltb zero x.
Definition is_neg (x : F) : bool := f_ltb x zero.

(** An infinity with the sign of [x]; [nan] when [x] is zero. *)
Definition signed_inf (x : F) : num F :=
  if is_pos x then PInf else if is_neg x then NInf else NaN.

Definition neg (a : num F) : num F :=
  match a with
  | Fin x => Fin (f_sub zero x)
  | PInf => NInf
  | NInf => PInf
  | NaN => NaN
  end.

Definition add (a b : num F) : num F :=
  match a, b with
  | NaN, _ | _, NaN => NaN
  | Fin x, Fin y => Fin (f_add x y)
  | PInf, NInf | NInf, PInf => NaN
  | PInf, _ | _, PInf => PInf
  | NInf, _ | _, NInf => NInf
  end.

Definition sub (a b : num F) : num F :=
  match a, b with
  | Fin x, Fin y => Fin (f_sub x y)
  | _, _ => add a (neg b)
  end.

Definition mul (a b : num F) : num F :=
  match a, b with
  | NaN, _ | _, NaN => NaN
  | Fin x, Fin y => Fin (f_mul x y)
  | Fin x, PInf | PInf, Fin x => signed_inf x
  | Fin x, NInf | NInf, Fin x => neg (signed_inf x)
  | PInf, PInf | NInf, NInf => PInf
  | PInf, NInf | NInf, PInf => NInf
  end.

Definition div (a b : num F) : num F :=
  match a, b with
  | NaN, _ | _, NaN => NaN
  | Fin x, Fin y => if f_eqb y zero then signed_inf x else Fin (f_div x y)
  | Fin _, _ => Fin zero
  | PInf, Fin y => if is_neg y then NInf else PInf
  | NInf, Fin y => if is_neg y then PInf else NInf
  | _, _ => NaN
  end.

Definition lt (a b : num F) : bool :=
  match a, b with
  | NaN, _ | _, NaN => false
  | Fin x, Fin y => f_ltb x y
  | NInf, Fin _ | NInf, PInf | Fin _, PInf => true
  | _, _ => false
  end.

Definition is_zero (a : num F) : bool :=
  match a with Fin x => f_eqb x zero | _ => false end.

Definition is_nan (a : num F) : bool :=
  match a with NaN => true | _ => false end.

Definition as_index (a : num F) : option Z :=
  match a with Fin x => f_to_Z x | _ => None end.

End ops.
End IEEE.

#[global] Instance num_Num {F} `{Field F} : Num (num F) := {|
  of_Z z := Fin (f_of_Z z);
  nan := NaN;
  neg_inf := NInf;
  add := IEEE.add;
  sub := IEEE.sub;
  mul := IEEE.mul;
  true_div := IEEE.div;
  is_zero := IEEE.is_zero;
  is_nan := IEEE.is_nan;
  lt := IEEE.lt;
  as_index := IEEE.as_index
|}.

(** Rationals: the instance that computes. *)
#[global] Instance Q_Field : Field Q := {|
  f_of_Z := inject_Z;
  f_add := Qplus;
  f_sub := Qminus;
  f_mul := Qmult;
  f_div := Qdiv;
  f_ltb x y := negb (Qle_bool y x);
  f_eqb := Qeq_bool;
  f_to_Z x := let r := Qred x in
              if decide (Qden r = 1%positive) then Some (Qnum r) else None
|}.

(** Reals: the instance in which [exp] exists. *)
#[global] Instance R_Field : Field R := {|
  f_of_Z := IZR;
  f_add := Rplus;
  f_sub := Rminus;
  f_mul := Rmult;
  f_div := Rdiv;
  f_ltb x y := if Rlt_dec x y then true else false;
  f_eqb x y := if Req_dec_T x y then true else false;
  f_to_Z x := if Req_dec_T x (IZR (Int_part x)) then Some (Int_part x) else None
|}.

#[global] Instance R_Exp : Exp (num R) := λ a,
  match a with
  | Fin x => Fin (Rtrigo_def.exp x)
  | PInf => PInf
  | NInf => Fin 0%R
  | NaN => NaN
  end.

Definition xq : Type := num Q.
Definition xr : Type := num R.

(** An integer literal as a rational sample. *)
Definition int (z : Z) : xq := Fin (inject_Z z).

(** ** The line scan object *)

(** Attribute values. The image and the end points are never inspected
    by this module, so any object other than [None], an int or a list of
    pixel locations is an opaque reference. *)
Inductive pyobj : Type :=
  | PyNone
  | PyInt (z : Z)
  | PyObj (id : positive)
  | PyPoints (pts : list (Z * Z)).

#[global] Instance pyobj_eq_dec : EqDecision pyobj.
Proof. solve_decision. Defined.

Section LineScan.
Context {V : Type}.

(** The list part of the object and its instance dictionary. The six
    attributes assigned at the start of [__init__] are bound in every
    instance; [point_loc] is bound on the instance only once it has
    been assigned, and until then resolves to the class attribute. *)
Record LineScan : Type := {
  samples : list V;
  image : pyobj;
  pt1 : pyobj;
  pt2 : pyobj;
  row : pyobj;
  col : pyobj;
  channel : pyobj;
  point_loc_attr : option pyobj
}.

(** Class attribute [point_loc = None]. *)
Definition class_point_loc : pyobj := PyNone.

(** [self.point_loc] *)
Definition point_loc (self : LineScan) : pyobj :=
  match point_loc_attr self with
  | Some v => v
  | None => class_point_loc
  end.

(** [self.__dict__] *)
Definition __dict__ (self : LineScan) : gmap string pyobj :=
  let d : gmap string pyobj :=
    <["image" := image self]> (<["pt1" := pt1 self]> (<["pt2" := pt2 self]>
    (<["row" := row self]> (<["col" := col self]>
    (<["channel" := channel self]> ∅))))) in
  match point_loc_attr self with
  | Some v => <["point_loc" := v]> d
  | None => d
  end.

Definition set_image (v : pyobj) (self : LineScan) : LineScan :=
  {| samples := samples self; image := v; pt1 := pt1 self; pt2 := pt2 self;
     row := row self; col := col self; channel := channel self;
     point_loc_attr := point_loc_attr self |}.

Definition set_pt1 (v : pyobj) (self : LineScan) : LineScan :=
  {| samples := samples self; image := image self; pt1 := v; pt2 := pt2 self;
     row := row self; col := col self; channel := channel self;
     point_loc_attr := point_loc_attr self |}.

Definition set_pt2 (v : pyobj) (self : LineScan) : LineScan :=
  {| samples := samples self; image := image self; pt1 := pt1 self; pt2 := v;
     row := row self; col := col self; channel := channel self;
     point_loc_attr := point_loc_attr self |}.

Definition set_row (v : pyobj) (self : LineScan) : LineScan :=
  {| samples := samples self; image := image self; pt1 := pt1 self;
     pt2 := pt2 self; row := v; col := col self; channel := channel self;
     point_loc_attr := point_loc_attr self |}.

Definition set_col (v : pyobj) (self : LineScan) : LineScan :=
  {| samples := samples self; image := image self; pt1 := pt1 self;
     pt2 := pt2 self; row := row self; col := v; channel := channel self;
     point_loc_attr := point_loc_attr self |}.

Definition set_channel (v : pyobj) (self : LineScan) : LineScan :=
  {| samples := samples self; image := image self; pt1 := pt1 self;
     pt2 := pt2 self; row := row self; col := col self; channel := v;
     point_loc_attr := point_loc_attr self |}.

Definition set_point_loc (v : pyobj) (self : LineScan) : LineScan :=
  {| samples := samples self; image := image self; pt1 := pt1 self;
     pt2 := pt2 self; row := row self; col := col self;
     channel := channel self; point_loc_attr := Some v |}.

(** [self.__dict__[key] = v] *)
Definition setitem (key : string) (v : pyobj) (self : LineScan) : LineScan :=
  if decide (key = "image") then set_image v self
  else if decide (key = "pt1") then set_pt1 v self
  else if decide (key = "pt2") then set_pt2 v self
  else if decide (key = "row") then set_row v self
  else if decide (key = "col") then set_col v self
  else if decide (key = "channel") then set_channel v self
  else if decide (key = "point_loc") then set_point_loc v self
  else self.

(** [zip(range(0, n), range(0, n))] *)
Definition identity_locs (n : Z) : pyobj :=
  PyPoints (zip (Py.range 0 n) (Py.range 0 n)).

(** [LineScan(args, **kwargs)], lines 26-43. *)
Definition __init__ (args : list V) (kwargs : list (string * pyobj))
  : LineScan :=
  let self := {| samples := args; image := PyNone; pt1 := PyNone;
                 pt2 := PyNone; row := PyNone; col := PyNone;
                 channel := PyInt (-1); point_loc_attr := None |} in
  let self :=
    foldl (λ self kv,
             if bool_decide (is_Some (__dict__ self !! kv.1))
             then setitem kv.1 kv.2 self
             else self)
          self kwargs in
  match point_loc self with
  | PyNone => set_point_loc (identity_locs (Py.len (samples self))) self
  | _ => self
  end.

(** [self._update(obj)], lines 45-57. *)
Definition _update (self obj : LineScan) : LineScan :=
  let self := set_image (image obj) self in
  let self := set_pt1 (pt1 obj) self in
  let self := set_pt2 (pt2 obj) self in
  let self := set_row (row obj) self in
  let self := set_col (col obj) self in
  let self := set_channel (channel obj) self in
  set_point_loc (point_loc obj) self.

(** Subscripts: an int or a slice of step 1. *)
Inductive key : Type :=
  | Index (i : Z)
  | Slice (start stop : option Z).

Inductive item : Type :=
  | Sample (v : V)
  | Scan (s : LineScan).

(** [self[key]], lines 59-68. *)
Definition __getitem__ (self : LineScan) (k : key) : result item :=
  match k with
  | Slice start stop =>
      let item := Py.slice (samples self) start stop in
      Return (Scan (__init__ item []))
  | Index i =>
      item ← Py.index (samples self) i;
      Return (Sample item)
  end.

(** The five attributes the propagation contract is about. *)
Definition same_metadata (out self : LineScan) : Prop :=
  image out = image self ∧ pt1 out = pt1 self ∧ pt2 out = pt2 self ∧
  channel out = channel self ∧ point_loc out = point_loc self.

End LineScan.
Arguments LineScan V : clear implicits.
Arguments item V : clear implicits.

(** ** Library functions used by the methods *)

Section numeric.
Context {V : Type} `{Num V}.

(** [operator.div]: Python's own division raises on a zero divisor. *)
Definition operator_div (x y : V) : result V :=
  if is_zero y then Raise ZeroDivisionError else Return (true_div x y).

(** The builtin [sum]: starts from the int [0] and adds from the left. *)
Definition py_sum (l : list V) : V := foldl add (of_Z 0) l.

(** The builtins [max] and [min]: the first item is kept until a later
    one compares strictly greater (smaller); empty sequences raise. *)
Definition py_max (l : list V) : result V :=
  match l with
  | [] => Raise ValueError
  | x :: l' => Return (foldl (λ m y, if lt m y then y else m) x l')
  end.

Definition py_min (l : list V) : result V :=
  match l with
  | [] => Raise ValueError
  | x :: l' => Return (foldl (λ m y, if lt y m then y else m) x l')
  end.

(** [numpy.maximum] and [numpy.minimum] propagate [nan]. *)
Definition np_maximum (a b : V) : V :=
  if is_nan a then a else if is_nan b then b else if lt a b then b else a.

Definition np_minimum (a b : V) : V :=
  if is_nan a then a else if is_nan b then b else if lt b a then b else a.

(** [numpy.max] and [numpy.min] of a one-dimensional array. *)
Definition np_max (l : list V) : result V :=
  match l with
  | [] => Raise ValueError
  | x :: l' => Return (foldl np_maximum x l')
  end.

Definition np_min (l : list V) : result V :=
  match l with
  | [] => Raise ValueError
  | x :: l' => Return (foldl np_minimum x l')
  end.

(** The product [a * b] of two one-dimensional arrays: elementwise for
    equal lengths, an array of length one is broadcast, any other pair
    of shapes is rejected. *)
Definition np_mul (a b : list V) : result (list V) :=
  if bool_decide (length a = length b) then Return (zip_with mul a b)
  else match a, b with
       | [x], _ => Return (mul x <$> b)
       | _, [y] => Return ((λ x, mul x y) <$> a)
       | _, _ => Raise ValueError
       end.

(** Ascending sort of an array without [nan]. *)
Fixpoint insert_sorted (x : V) (l : list V) : list V :=
  match l with
  | [] => [x]
  | y :: l' => if lt x y then x :: l else y :: insert_sorted x l'
  end.

Definition np_sort (l : list V) : list V := foldr insert_sorted [] l.

(** [numpy.median]: [nan] for an empty array or an array that holds a
    [nan]; otherwise the middle of the sorted array, the mean of the two
    middle values when the length is even. *)
Definition np_median (l : list V) : V :=
  match l with
  | [] => nan
  | _ =>
      if existsb is_nan l then nan
      else
        let s := np_sort l in
        let n := length l in
        if Nat.even n
        then true_div (add (default nan (s !! (n / 2 - 1)%nat))
                           (default nan (s !! (n / 2)%nat)))
                      (of_Z 2)
        else default nan (s !! (n / 2)%nat)
  end.

(** Sum of the products of two aligned segments. *)
Definition np_dot (a b : list V) : V :=
  match zip_with mul a b with
  | [] => of_Z 0
  | p :: ps => foldl add p ps
  end.

(** [numpy.convolve(a, v, 'full')[k]] for [len(v) <= len(a)]:
    the sum of [a[j] * v[k - j]] over the overlap. *)
Definition convolve_at (a v : list V) (k : Z) : V :=
  let lo := Z.max 0 (k - Py.len v + 1) in
  let hi := Z.min (Py.len a) (k + 1) in
  np_dot (Py.slice a (Some lo) (Some hi))
         (reverse (Py.slice v (Some (k - hi + 1)) (Some (k - lo + 1)))).

(** [numpy.convolve(a, v, 'same')]: the operands are swapped when [v] is
    the longer one, and the middle [max(len(a), len(v))] values of the
    full convolution are returned. Empty operands are rejected. *)
Definition np_convolve_same (a v : list V) : result (list V) :=
  match a, v with
  | [], _ | _, [] => Raise ValueError
  | _, _ =>
      let '(a, v) := if Py.len a <? Py.len v then (v, a) else (a, v) in
      let n1 := Py.len a in
      let n2 := Py.len v in
      let skip := (n2 - 1) / 2 in
      Return (convolve_at a v <$> Py.range skip (skip + n1))
  end.

(** [array[idxs]] with an integer index array. *)
Definition np_take {A} (l : list A) (idxs : list Z) : result (list A) :=
  mapM (Py.index l) idxs.

(** [numpy.where(cond)[0]] for a scalar condition. *)
Definition np_where_scalar (cond : bool) : list Z :=
  if cond then [0] else [].

(** [numpy.array(obj)] as a table of rows, ready to be indexed by an index
    array: only a list of points is more than a scalar. *)
Definition np_rows (obj : pyobj) : result (list (Z * Z)) :=
  match obj with
  | PyPoints pts => Return pts
  | _ => Raise IndexError
  end.

End numeric.

(** ** The methods of [LineScan] *)

Section methods.
Context {V : Type} `{Num V}.

Local Abbreviation LineScan := (LineScan V).

(** What a binary operator leaves behind: the lines it printed and its
    outcome, where [None] is Python's [None]. *)
Definition printed (A : Type) : Type := list string * A.

(** [self - other], lines 70-77. *)
Definition __sub__ (self other : LineScan)
  : printed (result (option LineScan)) :=
  if bool_decide (Py.len (samples self) = Py.len (samples other)) then
    let ret_val := __init__ (zip_with sub (samples self) (samples other)) [] in
    let ret_val := _update ret_val self in
    ([], Return (Some ret_val))
  else
    (["Size mismatch."], Return None).

(** [self + other], lines 79-87. *)
Definition __add__ (self other : LineScan)
  : printed (result (option LineScan)) :=
  if bool_decide (Py.len (samples self) = Py.len (samples other)) then
    let ret_val := __init__ (zip_with add (samples self) (samples other)) [] in
    let ret_val := _update ret_val self in
    ([], Return (Some ret_val))
  else
    (["Size mismatch."], Return None).

(** [self * other], lines 89-97. *)
Definition __mul__ (self other : LineScan)
  : printed (result (option LineScan)) :=
  if bool_decide (Py.len (samples self) = Py.len (samples other)) then
    let ret_val := __init__ (zip_with mul (samples self) (samples other)) [] in
    let ret_val := _update ret_val self in
    ([], Return (Some ret_val))
  else
    (["Size mismatch."], Return None).

(** [self.__div__(other)], lines 99-110. The method ends after the call
    of [_update]: there is no [return], so the call yields [None]. *)
Definition __div__ (self other : LineScan)
  : printed (result (option LineScan)) :=
  if bool_decide (Py.len (samples self) = Py.len (samples other)) then
    match mapM (λ p, operator_div p.1 p.2)
               (zip (samples self) (samples other)) with
    | Return quotients =>
        let ret_val := __init__ quotients [] in
        let ret_val := _update ret_val self in
        ([], Return None)
    | Raise ZeroDivisionError =>
        (["Second LineScan contains zeros."], Return None)
    | Raise e => ([], Raise e)
    end
  else
    (["Size mismatch."], Return None).

(** The keyword arguments most methods pass to the constructor. *)
Definition provenance (self : LineScan) : list (string * pyobj) :=
  [("image", image self); ("point_loc", point_loc self);
   ("pt1", pt1 self); ("pt2", pt2 self)].

(** [(4 * frac) ** 2] *)
Definition square (x : V) : V := mul x x.

(** The Gaussian weight of window position [i], lines 127-129. The
    divisor [float(window)] is odd, hence not zero, so Python's division
    and the total one agree on it. *)
Definition gauss `{Exp V} (degree window i : Z) : V :=
  let i := i - degree + 1 in
  let frac := true_div (of_Z i) (of_Z window) in
  true_div (of_Z 1) (exp (square (mul (of_Z 4) frac))).

(** [self.smooth(degree)], lines 112-144. The quotient of the two sums
    is a division of Python ints when the weight array is empty (both
    sums are then the int [0] the builtin [sum] starts from), and a
    numpy division otherwise. *)
Definition smooth `{Exp V} (self : LineScan) (degree : Z) : result LineScan :=
  let window := degree * 2 - 1 in
  let weight := Py.repeat (of_Z 1) window in
  let weight_gauss := gauss degree window <$> Py.range 0 window in
  weight ← np_mul weight_gauss weight;
  let smoothed := Py.repeat (of_Z 0) (Py.len (samples self) - window) in
  smoothed ←
    for_each
      (λ smoothed i,
         products ← np_mul (Py.slice (samples self) (Some i) (Some (i + window)))
                           weight;
         v ← match weight with
             | [] => Raise ZeroDivisionError
             | _ => Return (true_div (py_sum products) (py_sum weight))
             end;
         Return (<[Z.to_nat i := v]> smoothed))
      smoothed (Py.range 0 (Py.len smoothed));
  let front := Py.slice (samples self) (Some 0) (Some (degree - 1)) in
  let front := front ++ smoothed in
  let front := front ++ Py.slice (samples self) (Some (-1 * degree)) None in
  let ret_val := __init__ front (provenance self) in
  Return (_update ret_val self).

(** [self.normalize()], lines 146-156. *)
Definition normalize (self : LineScan) : result LineScan :=
  let tmp := samples self in
  m ← np_max tmp;
  let tmp := (λ x, true_div x m) <$> tmp in
  let ret_val := __init__ tmp (provenance self) in
  Return (_update ret_val self).

(** [self.scale(val_range)], lines 158-176. *)
Definition scale (self : LineScan) (val_range : list V) : result LineScan :=
  let tmp := samples self in
  vmax ← np_max tmp;
  vmin ← np_min tmp;
  a ← np_min val_range;
  b ← np_max val_range;
  let tmp :=
    (λ x, add (mul (true_div (sub b a) (sub vmax vmin)) (sub x vmin)) a)
      <$> tmp in
  let ret_val := __init__ tmp (provenance self) in
  Return (_update ret_val self).

(** [self.convolve(kernel)], lines 310-322. *)
Definition convolve (self : LineScan) (kernel : list V) : result LineScan :=
  out ← np_convolve_same (samples self) kernel;
  let ret_val :=
    __init__ out [("image", image self); ("point_loc", point_loc self);
                  ("pt1", pt1 self); ("pt2", pt2 self);
                  ("channel", channel self)] in
  Return ret_val.

(** [self.threshold(threshold, invert)], lines 408-435. *)
Definition threshold (self : LineScan) (threshold : V) (invert : bool)
  : LineScan :=
  let out : list V := [] in
  let high := of_Z 255 in
  let low := of_Z 0 in
  let '(high, low) := if invert then (of_Z 0, of_Z 255) else (high, low) in
  let out :=
    foldl (λ out p, if lt p threshold then out ++ [low] else out ++ [high])
          out (samples self) in
  let ret_val :=
    __init__ out [("image", image self); ("point_loc", point_loc self);
                  ("pt1", pt1 self); ("ptw", pt2 self)] in
  _update ret_val self.

(** [self.invert(max)], lines 437-452; the parameter is not used. *)
Definition invert (self : LineScan) (max : V) : LineScan :=
  let out : list V := [] in
  let out := foldl (λ out p, out ++ [sub (of_Z 255) p]) out (samples self) in
  let ret_val :=
    __init__ out [("image", image self); ("point_loc", point_loc self);
                  ("pt1", pt1 self); ("ptw", pt2 self)] in
  _update ret_val self.

(** [if size % 2 == 0: size += 1], lines 494-495. *)
Definition force_odd (size : Z) : Z :=
  if bool_decide (size mod 2 = 0) then size + 1 else size.

(** [self.median(size)], lines 487-512. *)
Definition median (self : LineScan) (size : Z) : LineScan :=
  let size := force_odd size in
  let skip := size / 2 in
  let out := Py.slice (samples self) (Some 0) (Some skip) in
  let vsz := Py.len (samples self) in
  let out :=
    foldl (λ out i,
             let val := np_median (Py.slice (samples self) (Some (i - skip))
                                            (Some (i + skip))) in
             out ++ [val])
          out (Py.range skip (vsz - skip)) in
  let out :=
    foldl (λ out p, out ++ [p])
          out (Py.slice (samples self) (Some (-1 * skip)) None) in
  let ret_val := __init__ out (provenance self) in
  _update ret_val self.

(** [lut[p]]: the subscript of a list must be an integer. *)
Definition getitem (lut : list V) (p : V) : result V :=
  match as_index p with
  | Some i => Py.index lut i
  | None => Raise TypeError
  end.

(** [self.apply_lut(lut)], lines 559-575. *)
Definition apply_lut (self : LineScan) (lut : list V) : result LineScan :=
  let out : list V := [] in
  out ← for_each (λ out p, v ← getitem lut p; Return (out ++ [v]))
                 out (samples self);
  let ret_val := __init__ out (provenance self) in
  Return (_update ret_val self).

End methods.

(** ** Extrema and features *)

Section features.
Context {V : Type} `{Num V}.

Local Abbreviation LineScan := (LineScan V).

(** [a < b] on two arrays of one length. *)
Definition np_less (a b : list V) : list bool := zip_with lt a b.

(** [a & b] on two boolean arrays of one length. *)
Definition np_and (a b : list bool) : list bool := zip_with andb a b.

(** [idx is True]: the identity test of an array object against the
    singleton [True]. An array is never that object, whatever it holds. *)
Definition is_True (idx : list bool) : bool := false.

(** [zip(i, values, pts)] *)
Definition zip3 {A B C} (a : list A) (b : list B) (c : list C)
  : list (A * B * C) := zip (zip a b) c.

(** [self.local_minima()], lines 224-239. *)
Definition local_minima (self : LineScan) : result (list (Z * V * (Z * Z))) :=
  let tmp := samples self in
  let idx :=
    np_and (true :: np_less (Py.slice tmp (Some 1) None)
                            (Py.slice tmp None (Some (-1))))
           (np_less (Py.slice tmp None (Some (-1)))
                    (Py.slice tmp (Some 1) None) ++ [true]) in
  let i := np_where_scalar (is_True idx) in
  values ← np_take tmp i;
  pts ← np_rows (point_loc self);
  pts ← np_take pts i;
  let pts := (λ p, (p.1, p.2)) <$> pts in
  Return (zip3 i values pts).

(** [self.local_maxmima()], lines 241-256. *)
Definition local_maxmima (self : LineScan) : result (list (Z * V * (Z * Z))) :=
  let tmp := samples self in
  let idx :=
    np_and (true :: np_less (Py.slice tmp None (Some (-1)))
                            (Py.slice tmp (Some 1) None))
           (np_less (Py.slice tmp (Some 1) None)
                    (Py.slice tmp None (Some (-1))) ++ [true]) in
  let i := np_where_scalar (is_True idx) in
  values ← np_take tmp i;
  pts ← np_rows (point_loc self);
  pts ← np_take pts i;
  let pts := (λ p, (p.1, p.2)) <$> pts in
  Return (zip3 i values pts).

(** The state of the scanning loops: the running extremum, the local
    variable that holds its position once it has been assigned, and the
    features found so far. *)
Definition scan_state : Type := V * option Z * list (Z * V).

(** One iteration of the loop of [find_peaks], lines 662-668. *)
Definition peak_step (self : LineScan) (width : Z) (delta : V)
  (st : scan_state) (iv : Z * V) : result scan_state :=
  let '(maximum, max_pos, peaks) := st in
  let '(i, val) := iv in
  let '(maximum, max_pos) :=
    if lt maximum val then (val, Some i) else (maximum, max_pos) in
  m ← py_max (Py.slice (samples self) (Some (Z.max 0 (i - width)))
                       (Some (i + width)));
  if lt (add m delta) maximum then
    match max_pos with
    | Some pos => Return (neg_inf, max_pos, peaks ++ [(pos, maximum)])
    | None => Raise UnboundLocalError
    end
  else Return (maximum, max_pos, peaks).

(** [self.find_peaks(window, delta)], lines 646-670; [int(window / 2)]
    truncates towards zero. *)
Definition find_peaks (self : LineScan) (window : Z) (delta : V)
  : result (list (Z * V)) :=
  let maximum := neg_inf in
  let width := Z.quot window 2 in
  let peaks := [] in
  st ← for_each (peak_step self width delta) (maximum, None, peaks)
                (Py.enumerate (samples self));
  Return st.2.

(** One iteration of the loop of [find_valleys], lines 688-694. *)
Definition valley_step (self : LineScan) (width : Z) (delta : V)
  (st : scan_state) (iv : Z * V) : result scan_state :=
  let '(minimum, min_pos, valleys) := st in
  let '(i, val) := iv in
  let '(minimum, min_pos) :=
    if lt val minimum then (val, Some i) else (minimum, min_pos) in
  m ← py_min (Py.slice (samples self) (Some (Z.max 0 (i - width)))
                       (Some (i + width)));
  if lt (sub m delta) minimum then
    match min_pos with
    | Some pos => Return (neg_inf, min_pos, valleys ++ [(pos, minimum)])
    | None => Raise UnboundLocalError
    end
  else Return (minimum, min_pos, valleys).

(** [self.find_valleys(window, delta)], lines 672-696. *)
Definition find_valleys (self : LineScan) (window : Z) (delta : V)
  : result (list (Z * V)) :=
  let minimum := neg_inf in
  let width := Z.quot window 2 in
  let valleys := [] in
  st ← for_each (valley_step self width delta) (minimum, None, valleys)
                (Py.enumerate (samples self));
  Return st.2.

End features.

(** ** Sample line scans *)

(** Rational samples [1, 5, 1, 5, 1, 5, 1] with no metadata. *)
Definition zigzag : LineScan xq := __init__ (int <$> [1; 5; 1; 5; 1; 5; 1]) [].

(** A line scan cut from an image: every attribute differs from the
    constructor's defaults. *)
Definition probe : LineScan xq :=
  _update (__init__ (int <$> [10; 100; 200]) [])
    {| samples := @nil xq; image := PyObj 1; pt1 := PyObj 2; pt2 := PyObj 3;
       row := PyNone; col := PyNone; channel := PyInt 0;
       point_loc_attr := Some (PyPoints [(4, 7); (5, 7); (6, 7)]) |}.

(** The same over the reals. *)
Definition probe_r : LineScan xr :=
  _update (__init__ (Fin <$> [10; 100; 200; 40; 50]%R) [])
    {| samples := @nil xr; image := PyObj 1; pt1 := PyObj 2; pt2 := PyObj 3;
       row := PyNone; col := PyNone; channel := PyInt 0;
       point_loc_attr := Some (PyPoints [(4, 7); (5, 7); (6, 7); (7, 7); (8, 7)]) |}.

(** ** Gaussian smoothing as the specification words it *)

(** The weight [exp(-(4 * i / window)^2)] of offset [i] from the window
    centre, for the window of [2 * degree - 1] samples. *)
Definition gaussian_weight (degree i : Z) : R :=
  Rtrigo_def.exp (- (4 * IZR i / IZR (2 * degree - 1)) ^ 2)%R.

(** The weights of the offsets [-(degree - 1), ..., degree - 1]. *)
Definition gaussian_window (degree : Z) : list xr :=
  (λ i, Fin (gaussian_weight degree i)) <$> Py.range (- (degree - 1)) degree.

(** The samples at [j - (degree - 1), ..., j + (degree - 1)]. *)
Definition neighborhood {V} (self : LineScan V) (degree j : Z) : list V :=
  Py.slice (samples self) (Some (j - (degree - 1))) (Some (j + degree)).

(** The sum of the weighted samples over the sum of the weights. *)
Definition weighted_average {V} `{Num V} (xs ws : list V) : V :=
  true_div (py_sum (zip_with mul xs ws)) (py_sum ws).

(** The same average over finite reals: the sum of [x * w] over the sum
    of the [w]. *)
Definition real_sum (l : list R) : R := foldl Rplus 0%R l.

Definition real_weighted_average (xs ws : list R) : R :=
  (real_sum (zip_with Rmult xs ws) / real_sum ws)%R.

(** The samples [smooth] hands to the constructor. *)
Definition smoothed_samples (self : LineScan xr) (degree : Z) : list xr :=
  let n := Py.len (samples self) in
  take (Z.to_nat (degree - 1)) (samples self)
  ++ ((λ i, weighted_average (neighborhood self degree (i + (degree - 1)))
                             (gaussian_window degree))
        <$> Py.range 0 (n - (2 * degree - 1)))
  ++ drop (Z.to_nat (n - degree)) (samples self).

(** ** Sliding median: the windows *)

(** The window the loop of [median] takes its median from at index [i]:
    the samples at [i - skip, ..., i + skip - 1]. *)
Definition median_window {V} (self : LineScan V) (skip i : Z) : list V :=
  Py.slice (samples self) (Some (i - skip)) (Some (i + skip)).

(** The window of the specification: the [2 * skip + 1] samples centred
    at [i]. *)
Definition centered_window {V} (self : LineScan V) (skip i : Z) : list V :=
  Py.slice (samples self) (Some (i - skip)) (Some (i + skip + 1)).

(** ** Local extrema as the specification words them *)

(** Index [i] of [l] holds a local minimum: it is strictly less than each
    neighbour it has. *)
Definition is_local_minimum {V} `{Num V} (l : list V) (i : nat) : Prop :=
  ∃ x, l !! i = Some x ∧
       (∀ y, (0 < i)%nat → l !! (i - 1)%nat = Some y → lt x y = true) ∧
       (∀ y, l !! (i + 1)%nat = Some y → lt x y = true).

(** Index [i] of [l] holds a local maximum. *)
Definition is_local_maximum {V} `{Num V} (l : list V) (i : nat) : Prop :=
  ∃ x, l !! i = Some x ∧
       (∀ y, (0 < i)%nat → l !! (i - 1)%nat = Some y → lt y x = true) ∧
       (∀ y, l !! (i + 1)%nat = Some y → lt y x = true).

(** ** Subscripts *)

(** The position a list subscript [i] reads in a list of length [n]:
    a negative subscript counts from the end. *)
Definition position (n i : Z) : nat :=
  Z.to_nat (if i <? 0 then i + n else i).

(** ** Proof tools *)

(** Case analysis on the outcome of the first call of a sequence. *)
Ltac bind_cases H :=
  repeat match type of H with
         | (_ ← ?m; _) = Return _ =>
             let r := fresh "r" in
             destruct m as [r|?] eqn:?; simpl in H; [|discriminate H]
         | mbind _ ?m = Return _ =>
             let r := fresh "r" in
             destruct m as [r|?] eqn:?; simpl in H; [|discriminate H]
         end.

(** Products of finite reals. *)
Ltac xr_mul :=
  repeat match goal with
         | |- context [@mul (num R) _ (Fin ?x) (Fin ?y)] =>
             change (@mul (num R) _ (Fin x) (Fin y)) with (Fin (x * y)%R : xr)
         end.

(** ** Further methods of [LineScan] *)

(** [==] and [>=] on samples. *)
Class Compare (V : Type) := {
  equal : V → V → bool;
  greater_equal : V → V → bool
}.

(** [nan] equals nothing and is in no order relation; the infinities
    equal themselves and bound the finite values. *)
#[global] Instance num_Compare {F} `{Field F} : Compare (num F) := {|
  equal a b :=
    match a, b with
    | Fin x, Fin y => f_eqb x y
    | PInf, PInf | NInf, NInf => true
    | _, _ => false
    end;
  greater_equal a b :=
    match a, b with
    | NaN, _ | _, NaN => false
    | Fin x, Fin y => negb (f_ltb x y)
    | PInf, _ | _, NInf => true
    | _, _ => false
    end
|}.



(** The indices of the true entries of a mask, counted from [i]. *)
Fixpoint where_from (i : Z) (mask : list bool) : list Z :=
  match mask with
  | [] => []
  | b :: mask' =>
      if b then i :: where_from (i + 1) mask' else where_from (i + 1) mask'
  end.

(** [numpy.where(mask)[0]] for a one-dimensional mask. *)
Definition np_where (mask : list bool) : list Z := where_from 0 mask.

Section more_methods.
Context {V : Type} `{Num V} `{Compare V}.

Local Abbreviation LineScan := (LineScan V).

(** [numpy.clip(value, lo, hi)] *)
Definition np_clip (value lo hi : V) : V :=
  np_minimum (np_maximum value lo) hi.


(** [self.minima()], lines 178-191. *)
Definition minima (self : LineScan) : result (list (Z * V * (Z * Z))) :=
  minvalue ← np_min (samples self);
  let idxs := np_where ((λ x, equal x minvalue) <$> samples self) in
  let minvalue := replicate (length idxs) (mul (of_Z 1) minvalue) in
  pts ← np_rows (point_loc self);
  pts ← np_take pts idxs;
  let pts := (λ p, (p.1, p.2)) <$> pts in
  Return (zip3 idxs minvalue pts).

(** [self.maxima()], lines 193-207. *)
Definition maxima (self : LineScan) : result (list (Z * V * (Z * Z))) :=
  maxvalue ← np_max (samples self);
  let idxs := np_where ((λ x, equal x maxvalue) <$> samples self) in
  let maxvalue := replicate (length idxs) (mul (of_Z 1) maxvalue) in
  pts ← np_rows (point_loc self);
  pts ← np_take pts idxs;
  let pts := (λ p, (p.1, p.2)) <$> pts in
  Return (zip3 idxs maxvalue pts).


(** [self.fill_lut(lut, idxs, value)], lines 386-406, for a list of
    integer indices. *)
Definition fill_lut (lut : list V) (idxs : list Z) (value : V) : list V :=
  let val := np_clip value (of_Z 0) (of_Z 255) in
  foldl (λ lut idx,
           if bool_decide (0 ≤ idx < Py.len lut)
           then <[Z.to_nat idx := val]> lut
           else lut)
        lut idxs.





(** [self.find_first_index_equal(value)], lines 514-527. *)
Definition find_first_index_equal (self : LineScan) (value : V) : option Z :=
  let vals := np_where ((λ x, equal x value) <$> samples self) in
  let ret_val := None in
  if bool_decide (0 < Py.len vals) then head vals else ret_val.

(** [self.find_last_index_equal(value)], lines 529-542. *)
Definition find_last_index_equal (self : LineScan) (value : V) : option Z :=
  let vals := np_where ((λ x, equal x value) <$> samples self) in
  let ret_val := None in
  if bool_decide (0 < Py.len vals) then last vals else ret_val.

(** [self.find_first_index_greater(value)], lines 544-557. *)
Definition find_first_index_greater (self : LineScan) (value : V) : option Z :=
  let vals := np_where ((λ x, greater_equal x value) <$> samples self) in
  let ret_val := None in
  if bool_decide (0 < Py.len vals) then head vals else ret_val.

End more_methods.


(** The largest and the smallest of the reals [x :: l]. *)
Definition real_max (x : R) (l : list R) : R := foldl Rmax x l.
Definition real_min (x : R) (l : list R) : R := foldl Rmin x l.


(** * Properties *)

(** ** Slices and ranges *)

Lemma slice_prefix {A} (l : list A) (b : Z) :
  0 ≤ b → Py.slice l (Some 0) (Some b) = take (Z.to_nat b) l.
Proof.
  intros Hb. unfold Py.slice, Py.adjust, Py.len. simpl.
  destruct (Z.ltb_spec b 0); [lia|].
  rewrite !(Z.min_l 0) by lia. rewrite drop_0.
  destruct (Z.min_spec b (Z.of_nat (length l))) as [[? ->]|[? ->]].
  - f_equal. lia.
  - rewrite Z.sub_0_r, Nat2Z.id. rewrite !take_ge; [done|lia|lia].
Qed.

Lemma slice_suffix {A} (l : list A) (k : Z) :
  0 < k ≤ Py.len l →
  Py.slice l (Some (- k)) None = drop (Z.to_nat (Py.len l - k)) l.
Proof.
  intros Hk. unfold Py.slice, Py.adjust. simpl. unfold Py.len in *.
  destruct (Z.ltb_spec (- k) 0); [|lia].
  rewrite Z.max_r by lia.
  replace (- k + Z.of_nat (length l)) with (Z.of_nat (length l) - k) by lia.
  apply take_ge. rewrite length_drop. lia.
Qed.

Lemma slice_window {A} (l : list A) (a b : Z) :
  0 ≤ a → a ≤ b → b ≤ Py.len l →
  Py.slice l (Some a) (Some b) = take (Z.to_nat (b - a)) (drop (Z.to_nat a) l).
Proof.
  intros Ha Hab Hb. unfold Py.slice, Py.adjust. simpl. unfold Py.len in *.
  destruct (Z.ltb_spec a 0); [lia|]. destruct (Z.ltb_spec b 0); [lia|].
  rewrite !Z.min_l by lia. done.
Qed.

Lemma slice_window_length {A} (l : list A) (a b : Z) :
  0 ≤ a → a ≤ b → b ≤ Py.len l →
  length (Py.slice l (Some a) (Some b)) = Z.to_nat (b - a).
Proof.
  intros Ha Hab Hb. rewrite slice_window by done.
  rewrite length_take, length_drop. unfold Py.len in *. lia.
Qed.

Lemma range_length (a b : Z) : length (Py.range a b) = Z.to_nat (b - a).
Proof. unfold Py.range. apply length_seqZ. Qed.

Lemma repeat_length {A} (x : A) (n : Z) : length (Py.repeat x n) = Z.to_nat n.
Proof. unfold Py.repeat. apply length_replicate. Qed.

(** ** Loops *)

Lemma bind_Return {A B} (a : A) (f : A → result B) : Return a ≫= f = f a.
Proof. reflexivity. Qed.

Lemma foldl_append {A B} (f : B → A) (out : list A) (l : list B) :
  foldl (λ out x, out ++ [f x]) out l = out ++ (f <$> l).
Proof.
  revert out. induction l as [|x l IH]; intros out; simpl.
  - by rewrite app_nil_r.
  - rewrite IH. by rewrite <- app_assoc.
Qed.

Lemma foldl_extend {A} (out l : list A) :
  foldl (λ out p, out ++ [p]) out l = out ++ l.
Proof.
  revert out. induction l as [|x l IH]; intros out; simpl.
  - by rewrite app_nil_r.
  - rewrite IH. by rewrite <- app_assoc.
Qed.

Lemma for_each_total {A S} (body : S → A → result S) (step : S → A → S)
    (s : S) (l : list A) :
  (∀ s x, x ∈ l → body s x = Return (step s x)) →
  for_each body s l = Return (foldl step s l).
Proof.
  revert s. induction l as [|x l IH]; intros s Hbody; simpl; [done|].
  rewrite Hbody by (left). simpl. apply IH.
  intros s' y Hy. apply Hbody. by right.
Qed.

(** ** The constructor *)

Section constructor.
Context {V : Type}.
Implicit Types (self : LineScan V) (kwargs : list (string * pyobj)).

(** Before [point_loc] has been assigned it is not a key of the instance
    dictionary. *)
Lemma point_loc_not_in_dict self :
  point_loc_attr self = None → __dict__ self !! "point_loc" = None.
Proof. intros Hattr. unfold __dict__. rewrite Hattr. reflexivity. Qed.

Lemma setitem_keeps_samples key v self :
  samples (setitem key v self) = samples self.
Proof. unfold setitem. repeat case_decide; reflexivity. Qed.

Lemma setitem_keeps_point_loc key v self :
  key ≠ "point_loc" →
  point_loc_attr (setitem key v self) = point_loc_attr self.
Proof. intros Hkey. unfold setitem. repeat case_decide; done. Qed.

(** The record is a view of the instance dictionary: its keys are the
    attribute names, and an item assignment to one of them is the record
    update. *)
Lemma dict_keys self key :
  is_Some (__dict__ self !! key) →
  key ∈ ["image"; "pt1"; "pt2"; "row"; "col"; "channel"; "point_loc"].
Proof.
  unfold __dict__. intros Hkey.
  destruct (decide (key ∈ ["image"; "pt1"; "pt2"; "row"; "col"; "channel";
                           "point_loc"])) as [|Hnot]; [done|].
  exfalso. rewrite !not_elem_of_cons in Hnot.
  destruct Hnot as (? & ? & ? & ? & ? & ? & ? & _).
  destruct (point_loc_attr self);
    repeat (rewrite lookup_insert_ne in Hkey by done);
    rewrite lookup_empty in Hkey; by destruct Hkey.
Qed.

Lemma setitem_dict self key v :
  is_Some (__dict__ self !! key) →
  __dict__ (setitem key v self) = <[key := v]> (__dict__ self).
Proof.
  intros Hkey. pose proof (dict_keys self key Hkey) as Hin.
  rewrite !elem_of_cons in Hin.
  destruct Hin as [->|[->|[->|[->|[->|[->|[->|Hin]]]]]]];
    [..|by apply elem_of_nil in Hin].
  all: apply map_eq; intros k; unfold setitem, __dict__; simpl.
  all: destruct (point_loc_attr self) eqn:Hattr; simpl.
  all: try (rewrite Hattr in *).
  all: rewrite ?lookup_insert; repeat case_decide; try congruence.
  all: try done.
Qed.

(** The loop over the keyword arguments (lines 38-40) never binds
    [point_loc] and never touches the samples. *)
Lemma kwargs_loop_invariant kwargs self :
  point_loc_attr self = None →
  ∃ self', foldl (λ self kv,
                    if bool_decide (is_Some (__dict__ self !! kv.1))
                    then setitem kv.1 kv.2 self else self) self kwargs = self' ∧
           point_loc_attr self' = None ∧ samples self' = samples self.
Proof.
  revert self. induction kwargs as [|[key v] kwargs IH]; intros self Hattr;
    simpl; [by eexists|].
  case_bool_decide as Hin; [|by apply IH].
  assert (key ≠ "point_loc") as Hkey.
  { intros ->. rewrite point_loc_not_in_dict in Hin by done.
    by destruct Hin. }
  destruct (IH (setitem key v self)) as (self' & Hloop & IH1 & IH2).
  { by rewrite setitem_keeps_point_loc. }
  exists self'. by rewrite Hloop, IH1, IH2, setitem_keeps_samples.
Qed.

Lemma init_samples (args : list V) kwargs :
  samples (__init__ args kwargs) = args.
Proof.
  unfold __init__.
  match goal with |- context [foldl _ ?s _] =>
    destruct (kwargs_loop_invariant kwargs s eq_refl) as (self & -> & Hattr & Hs)
  end.
  unfold point_loc. rewrite Hattr. simpl. exact Hs.
Qed.

Lemma init_point_loc (args : list V) kwargs :
  point_loc (__init__ args kwargs) = identity_locs (Py.len args).
Proof.
  unfold __init__.
  match goal with |- context [foldl _ ?s _] =>
    destruct (kwargs_loop_invariant kwargs s eq_refl) as (self & -> & Hattr & Hs)
  end.
  unfold point_loc at 2. rewrite Hattr. simpl. by rewrite Hs.
Qed.

Lemma update_samples self obj : samples (_update self obj) = samples self.
Proof. reflexivity. Qed.

Lemma update_same_metadata self obj : same_metadata (_update self obj) obj.
Proof. repeat split. Qed.

End constructor.

(** C9. The constructor does not keep a pixel-location list it is handed:
    whatever keyword arguments it receives, [point_loc] included, the new
    object's [point_loc] is the identity mapping [(i, i)]. Shown for every
    call and on the samples [7, 8] with locations [(3, 4), (5, 6)]. *)
Theorem init_ignores_point_loc :
  (∀ (V : Type) (args : list V) (kwargs : list (string * pyobj)),
     point_loc (__init__ args kwargs) = identity_locs (Py.len args)) ∧
  point_loc (__init__ (int <$> [7; 8]) [("point_loc", PyPoints [(3, 4); (5, 6)])])
    = PyPoints [(0, 0); (1, 1)].
Proof. split; [intros; apply init_point_loc | reflexivity]. Qed.

(** ** Elementwise arithmetic *)

Section arithmetic.
Context {V : Type} `{Num V}.
Implicit Types self other out : LineScan V.

(** On operands of one length [+], [-] and [*] return the line scan of the
    elementwise results. *)
Lemma elementwise_returns self other :
  length (samples self) = length (samples other) →
  (∃ out, __add__ self other = ([], Return (Some out)) ∧
          samples out = zip_with add (samples self) (samples other)) ∧
  (∃ out, __sub__ self other = ([], Return (Some out)) ∧
          samples out = zip_with sub (samples self) (samples other)) ∧
  (∃ out, __mul__ self other = ([], Return (Some out)) ∧
          samples out = zip_with mul (samples self) (samples other)).
Proof.
  intros Hlen.
  assert (Py.len (samples self) = Py.len (samples other)) as Hlen'
    by (unfold Py.len; lia).
  unfold __add__, __sub__, __mul__. rewrite !bool_decide_eq_true_2 by done.
  repeat apply conj; eexists; (split; [reflexivity|]);
    by rewrite update_samples, init_samples.
Qed.

Lemma operator_div_raises (l : list (V * V)) e :
  mapM (λ p, operator_div p.1 p.2) l = Raise e → e = ZeroDivisionError.
Proof.
  induction l as [|[x y] l IH]; cbn -[operator_div]; [done|].
  destruct (operator_div x y) as [q|e'] eqn:Hq; cbn -[operator_div].
  - destruct (mapM _ l); cbn; [done|]. intros [= ->]. by apply IH.
  - intros [= ->]. unfold operator_div in Hq. destruct (is_zero y); congruence.
Qed.

Lemma div_outcome self other : (__div__ self other).2 = Return None.
Proof.
  unfold __div__. case_bool_decide; [|done].
  destruct (mapM _ _) as [|e] eqn:Hdiv; [done|].
  apply operator_div_raises in Hdiv as ->. done.
Qed.

End arithmetic.

(** C2. Operands of different lengths do not make the operators fail:
    on [1] and [1, 2] each of them prints its message and returns [None],
    and no exception is raised. *)
Lemma size_mismatch_returns_None :
  let a : LineScan xq := __init__ [int 1] [] in
  let b : LineScan xq := __init__ [int 1; int 2] [] in
  Forall (λ op : LineScan xq → LineScan xq → printed (result (option (LineScan xq))),
            op a b = (["Size mismatch."], Return None) ∧
            ∀ e, (op a b).2 ≠ Raise e)
         [__add__; __sub__; __mul__; __div__].
Proof. repeat constructor; discriminate. Qed.

(** C2. For line scans of different lengths each of [+], [-], [*] and
    [__div__] prints ["Size mismatch."] and returns [None]; it raises
    nothing. *)
Theorem size_mismatch {V} `{Num V} (self other : LineScan V) :
  length (samples self) ≠ length (samples other) →
  Forall (λ op : LineScan V → LineScan V → printed (result (option (LineScan V))),
            op self other = (["Size mismatch."], Return None))
         [__add__; __sub__; __mul__; __div__].
Proof.
  intros Hlen.
  assert (Py.len (samples self) ≠ Py.len (samples other)) by (unfold Py.len; lia).
  repeat constructor.
  - unfold __add__. by case_bool_decide.
  - unfold __sub__. by case_bool_decide.
  - unfold __mul__. by case_bool_decide.
  - unfold __div__. by case_bool_decide.
Qed.

(** The operators on [1] and [1, 2]. *)
Lemma size_mismatch_witness :
  let a : LineScan xq := __init__ [int 1] [] in
  let b : LineScan xq := __init__ [int 1; int 2] [] in
  length (samples a) ≠ length (samples b) ∧
  Forall (λ op : LineScan xq → LineScan xq → printed (result (option (LineScan xq))),
            op a b = (["Size mismatch."], Return None))
         [__add__; __sub__; __mul__; __div__].
Proof.
  split; [simpl; lia|].
  apply (size_mismatch (__init__ [int 1] []) (__init__ [int 1; int 2] [])).
  simpl. lia.
Defined.

(** C3. [__div__] never hands back a line scan: the quotients are computed
    and given the metadata of the left operand, but the method ends without
    a [return], so every call yields [None]; so does the division of [6]
    by [3]. *)
Theorem div_returns_None :
  (∀ (V : Type) (N : Num V) (self other : LineScan V),
     (__div__ self other).2 = Return None) ∧
  __div__ (__init__ [int 6] []) (__init__ [int 3] []) = ([], Return None).
Proof. split; [intros; apply div_outcome | reflexivity]. Qed.

(** ** Metadata propagation *)

Section metadata.
Context {V : Type} `{Num V}.
Implicit Types self other out : LineScan V.

Lemma add_metadata self other out :
  (__add__ self other).2 = Return (Some out) → same_metadata out self.
Proof.
  unfold __add__. case_bool_decide; [|done]. simpl.
  intros [= <-]. apply update_same_metadata.
Qed.

Lemma sub_metadata self other out :
  (__sub__ self other).2 = Return (Some out) → same_metadata out self.
Proof.
  unfold __sub__. case_bool_decide; [|done]. simpl.
  intros [= <-]. apply update_same_metadata.
Qed.

Lemma mul_metadata self other out :
  (__mul__ self other).2 = Return (Some out) → same_metadata out self.
Proof.
  unfold __mul__. case_bool_decide; [|done]. simpl.
  intros [= <-]. apply update_same_metadata.
Qed.

Lemma smooth_metadata `{Exp V} self degree out :
  smooth self degree = Return out → same_metadata out self.
Proof.
  unfold smooth. intros Hout. bind_cases Hout.
  injection Hout as <-. apply update_same_metadata.
Qed.

Lemma normalize_metadata self out :
  normalize self = Return out → same_metadata out self.
Proof.
  unfold normalize. intros Hout. bind_cases Hout.
  injection Hout as <-. apply update_same_metadata.
Qed.

Lemma scale_metadata self val_range out :
  scale self val_range = Return out → same_metadata out self.
Proof.
  unfold scale. intros Hout. bind_cases Hout.
  injection Hout as <-. apply update_same_metadata.
Qed.

Lemma apply_lut_metadata self lut out :
  apply_lut self lut = Return out → same_metadata out self.
Proof.
  unfold apply_lut. intros Hout. bind_cases Hout.
  injection Hout as <-. apply update_same_metadata.
Qed.

(** The constructor call of [convolve] passes five keyword arguments, of
    which the instance dictionary accepts four. *)
Lemma convolve_metadata self kernel out :
  convolve self kernel = Return out →
  image out = image self ∧ pt1 out = pt1 self ∧ pt2 out = pt2 self ∧
  channel out = channel self ∧
  point_loc out = identity_locs (Py.len (samples out)).
Proof.
  unfold convolve. intros Hout. bind_cases Hout.
  injection Hout as <-. rewrite init_point_loc, init_samples.
  repeat split.
Qed.

(** A slice is built by the constructor alone. *)
Lemma slice_metadata self start stop out :
  __getitem__ self (Slice start stop) = Return (Scan out) →
  samples out = Py.slice (samples self) start stop ∧
  image out = PyNone ∧ pt1 out = PyNone ∧ pt2 out = PyNone ∧
  channel out = PyInt (-1) ∧
  point_loc out = identity_locs (Py.len (samples out)).
Proof. simpl. intros [= <-]. repeat split. Qed.

End metadata.

(** C1. A slice does not carry the metadata of the line scan it is cut
    from: the slice [0:2] of a line scan with an image, end points, a
    channel and pixel locations has none of them. *)
Lemma slice_drops_metadata :
  ∃ out, __getitem__ probe (Slice (Some 0) (Some 2)) = Return (Scan out) ∧
         image out ≠ image probe ∧ pt1 out ≠ pt1 probe ∧
         pt2 out ≠ pt2 probe ∧ channel out ≠ channel probe ∧
         point_loc out ≠ point_loc probe ∧
         ¬ same_metadata out probe.
Proof.
  eexists. split; [reflexivity|].
  repeat split; try discriminate. intros (Himage & _). discriminate Himage.
Qed.

(** C1. Metadata propagation as the code has it. A line scan returned by
    [+], [-], [*], [smooth], [normalize], [scale], [median], [threshold],
    [invert] or [apply_lut] has the image, end points, channel and pixel
    locations of the line scan it was computed from (the left operand).
    [convolve] keeps the image, the end points and the channel. A slice is
    a new line scan with the constructor's defaults: no image, no end
    points, channel -1 and the identity pixel locations. *)
Theorem metadata_propagation {V} `{Num V} (self : LineScan V) :
  (∀ other out, (__add__ self other).2 = Return (Some out) →
                same_metadata out self) ∧
  (∀ other out, (__sub__ self other).2 = Return (Some out) →
                same_metadata out self) ∧
  (∀ other out, (__mul__ self other).2 = Return (Some out) →
                same_metadata out self) ∧
  (∀ (E : Exp V) degree out, smooth self degree = Return out →
                             same_metadata out self) ∧
  (∀ out, normalize self = Return out → same_metadata out self) ∧
  (∀ val_range out, scale self val_range = Return out →
                    same_metadata out self) ∧
  (∀ size, same_metadata (median self size) self) ∧
  (∀ cutoff inverted, same_metadata (threshold self cutoff inverted) self) ∧
  (∀ max, same_metadata (invert self max) self) ∧
  (∀ lut out, apply_lut self lut = Return out → same_metadata out self) ∧
  (∀ kernel out, convolve self kernel = Return out →
                 image out = image self ∧ pt1 out = pt1 self ∧
                 pt2 out = pt2 self ∧ channel out = channel self) ∧
  (∀ start stop out,
     __getitem__ self (Slice start stop) = Return (Scan out) →
     image out = PyNone ∧ pt1 out = PyNone ∧ pt2 out = PyNone ∧
     channel out = PyInt (-1) ∧
     point_loc out = identity_locs (Py.len (samples out))).
Proof.
  repeat apply conj.
  - apply add_metadata.
  - apply sub_metadata.
  - apply mul_metadata.
  - intros E. apply smooth_metadata.
  - apply normalize_metadata.
  - apply scale_metadata.
  - intros size. apply update_same_metadata.
  - intros cutoff inverted. unfold threshold.
    destruct inverted; apply update_same_metadata.
  - intros max. apply update_same_metadata.
  - apply apply_lut_metadata.
  - intros kernel out Hout.
    destruct (convolve_metadata _ _ _ Hout) as (? & ? & ? & ? & _). done.
  - intros start stop out Hout.
    destruct (slice_metadata _ _ _ _ Hout) as (_ & ?). done.
Qed.

(** Each operation on a line scan whose metadata is not the default. *)
Lemma metadata_propagation_witness :
  (∃ out, (__add__ probe probe).2 = Return (Some out) ∧ same_metadata out probe) ∧
  (∃ out, (__sub__ probe probe).2 = Return (Some out) ∧ same_metadata out probe) ∧
  (∃ out, (__mul__ probe probe).2 = Return (Some out) ∧ same_metadata out probe) ∧
  (∃ out, smooth probe_r 2 = Return out ∧ same_metadata out probe_r) ∧
  (∃ out, normalize probe = Return out ∧ same_metadata out probe) ∧
  (∃ out, scale probe [int 0; int 1] = Return out ∧ same_metadata out probe) ∧
  (∃ out, apply_lut probe (int <$> seqZ 0 256) = Return out ∧
          same_metadata out probe) ∧
  (∃ out, convolve probe [int 1; int 1] = Return out ∧
          image out = image probe ∧ pt1 out = pt1 probe ∧
          pt2 out = pt2 probe ∧ channel out = channel probe) ∧
  (∃ out, __getitem__ probe (Slice (Some 0) (Some 2)) = Return (Scan out) ∧
          image out = PyNone ∧ pt1 out = PyNone ∧ pt2 out = PyNone ∧
          channel out = PyInt (-1) ∧
          point_loc out = identity_locs (Py.len (samples out))).
Proof.
  destruct (metadata_propagation probe)
    as (Hadd & Hsub & Hmul & _ & Hnorm & Hscale & _ & _ & _ & Hlut & Hconv & Hslice).
  destruct (metadata_propagation probe_r) as (_ & _ & _ & Hsmooth & _).
  repeat apply conj; eexists; (split; [reflexivity|]).
  - exact (Hadd probe _ eq_refl).
  - exact (Hsub probe _ eq_refl).
  - exact (Hmul probe _ eq_refl).
  - exact (Hsmooth _ 2 _ eq_refl).
  - exact (Hnorm _ eq_refl).
  - exact (Hscale [int 0; int 1] _ eq_refl).
  - exact (Hlut (int <$> seqZ 0 256) _ eq_refl).
  - exact (Hconv [int 1; int 1] _ eq_refl).
  - exact (Hslice (Some 0) (Some 2) _ eq_refl).
Defined.

(** ** Gaussian smoothing *)

Lemma np_mul_same_length {V} `{Num V} (a b : list V) :
  length a = length b → np_mul a b = Return (zip_with mul a b).
Proof. intros Hlen. unfold np_mul. by case_bool_decide. Qed.

Lemma foldl_insert_seq {A} (f : nat → A) (n : nat) (s : list A) :
  length s = n →
  foldl (λ s i, <[i := f i]> s) s (seq 0 n) = f <$> seq 0 n.
Proof.
  intros Hlen.
  assert (∀ k : nat, (k ≤ n)%nat →
            foldl (λ s i, <[i := f i]> s) s (seq 0 k)
            = (f <$> seq 0 k) ++ drop k s) as Hk.
  { induction k as [|k IH]; intros Hle.
    - by rewrite drop_0.
    - rewrite seq_S, foldl_snoc, IH by lia. simpl.
      rewrite fmap_app. simpl. rewrite <- app_assoc. simpl.
      destruct (lookup_lt_is_Some_2 s k) as [x Hx]; [lia|].
      rewrite (drop_S s x k Hx).
      replace k with (length (f <$> seq 0 k) + 0)%nat at 1
        by (rewrite length_fmap, length_seq; lia).
      by rewrite insert_app_r. }
  rewrite Hk by lia. rewrite drop_ge by lia. by rewrite app_nil_r.
Qed.

Lemma seqZ_as_seq (n : Z) : seqZ 0 n = Z.of_nat <$> seq 0 (Z.to_nat n).
Proof.
  unfold seqZ. apply list_fmap_ext. intros i x _. lia.
Qed.

(** A loop that stores [f i] at index [i] for [i] in [range(0, n)] fills
    a list of length [n] with the values of [f]. *)
Lemma for_each_fill {A} (body : list A → Z → result (list A)) (f : Z → A)
    (n : Z) (s : list A) :
  length s = Z.to_nat n →
  (∀ s i, 0 ≤ i < n → body s i = Return (<[Z.to_nat i := f i]> s)) →
  for_each body s (Py.range 0 n) = Return (f <$> Py.range 0 n).
Proof.
  intros Hlen Hbody. unfold Py.range. rewrite Z.sub_0_r.
  rewrite (for_each_total _ (λ s i, <[Z.to_nat i := f i]> s)).
  - f_equal. rewrite seqZ_as_seq, foldl_fmap, <- list_fmap_compose.
    rewrite <- (foldl_insert_seq (f ∘ Z.of_nat) _ s) by done.
    clear. generalize (seq 0 (Z.to_nat n)) as l. intros l. revert s.
    induction l as [|i l IH]; intros s; simpl; [done|].
    rewrite Nat2Z.id. apply IH.
  - intros s' i Hi. apply Hbody. apply elem_of_seqZ in Hi. lia.
Qed.

Lemma xr_div_fin (x y : R) :
  y ≠ 0%R → true_div (Fin x : xr) (Fin y) = Fin (x / y)%R.
Proof.
  intros Hy. simpl. unfold IEEE.div, IEEE.zero. simpl.
  destruct (Req_dec_T y 0); [contradiction|reflexivity].
Qed.

(** The weight the code computes, [1 / exp((4 * i / window) ** 2)] times
    the [1.0] of the unit window, is the weight of the specification. *)
Lemma gauss_weight (degree k : Z) :
  1 ≤ degree →
  mul (gauss degree (degree * 2 - 1) k) (of_Z 1)
  = Fin (gaussian_weight degree (k - (degree - 1))).
Proof.
  intros Hd. unfold gauss, square, gaussian_weight.
  change (of_Z ?z) with (Fin (IZR z) : xr).
  rewrite xr_div_fin by (apply not_0_IZR; lia).
  xr_mul.
  change (exp (Fin ?x : xr)) with (Fin (Rtrigo_def.exp x) : xr).
  rewrite xr_div_fin by (apply Rgt_not_eq, exp_pos).
  xr_mul.
  f_equal. rewrite exp_Ropp.
  replace (k - degree + 1) with (k - (degree - 1)) by lia.
  replace (degree * 2 - 1) with (2 * degree - 1) by lia.
  set (x := IZR (k - (degree - 1))). set (w := IZR (2 * degree - 1)).
  assert (w ≠ 0%R) by (apply not_0_IZR; lia).
  replace ((4 * x / w) ^ 2)%R with (4 * (x / w) * (4 * (x / w)))%R by (field; done).
  field. apply Rgt_not_eq, exp_pos.
Qed.

Lemma gauss_window_computed (degree : Z) :
  1 ≤ degree →
  let window := degree * 2 - 1 in
  np_mul (gauss degree window <$> Py.range 0 window)
         (Py.repeat (of_Z 1) window)
  = Return (gaussian_window degree).
Proof.
  intros Hd window.
  rewrite np_mul_same_length
    by (rewrite length_fmap, range_length, repeat_length; f_equal; lia).
  f_equal. unfold Py.repeat.
  rewrite zip_with_replicate_r_eq
    by (rewrite length_fmap, range_length; f_equal; lia).
  rewrite <- list_fmap_compose. unfold gaussian_window, Py.range.
  replace (degree - - (degree - 1)) with window by (unfold window; lia).
  rewrite Z.sub_0_r.
  replace (seqZ (- (degree - 1)) window)
    with (Z.add (- (degree - 1)) <$> seqZ 0 window)
    by (rewrite fmap_add_seqZ; f_equal; lia).
  rewrite <- list_fmap_compose. apply list_fmap_ext. intros _ k _.
  unfold compose, flip, window. rewrite gauss_weight by done.
  do 2 f_equal. lia.
Qed.

Lemma gaussian_window_length (degree : Z) :
  length (gaussian_window degree) = Z.to_nat (2 * degree - 1).
Proof.
  unfold gaussian_window. rewrite length_fmap, range_length. f_equal. lia.
Qed.

Lemma smooth_returns (self : LineScan xr) (degree : Z) :
  1 ≤ degree → 2 * degree - 1 ≤ Py.len (samples self) →
  smooth self degree
  = Return (_update (__init__ (smoothed_samples self degree) (provenance self))
                    self).
Proof.
  intros Hd Hn. unfold smooth.
  rewrite gauss_window_computed by done. rewrite bind_Return.
  set (window := degree * 2 - 1). set (n := Py.len (samples self)).
  replace (Py.len (Py.repeat (of_Z 0 : xr) (n - window))) with (n - window)
    by (unfold Py.len at 1; rewrite repeat_length; unfold window; lia).
  rewrite (for_each_fill _ (λ i, weighted_average
                                   (neighborhood self degree (i + (degree - 1)))
                                   (gaussian_window degree))).
  - rewrite bind_Return. do 3 f_equal. unfold smoothed_samples. fold n.
    rewrite slice_prefix by lia.
    replace (-1 * degree) with (- degree) by lia.
    rewrite slice_suffix by (fold n; lia). fold n.
    rewrite <- app_assoc. do 3 f_equal. unfold window. f_equal. lia.
  - by rewrite repeat_length.
  - intros s i Hi. rewrite np_mul_same_length.
    + rewrite bind_Return. destruct (gaussian_window degree) eqn:Hw.
      * apply (f_equal length) in Hw. rewrite gaussian_window_length in Hw.
        simpl in Hw. lia.
      * rewrite <- Hw. unfold weighted_average, neighborhood.
        replace (i + (degree - 1) - (degree - 1)) with i by lia.
        replace (i + (degree - 1) + degree) with (i + window)
          by (unfold window; lia).
        rewrite bind_Return. reflexivity.
    + rewrite slice_window_length by (fold n; unfold window in *; lia).
      rewrite gaussian_window_length. f_equal. unfold window. lia.
Qed.

Lemma py_sum_finite (l : list R) :
  py_sum (Fin <$> l : list xr) = Fin (real_sum l).
Proof.
  unfold py_sum, real_sum. change (of_Z 0 : xr) with (Fin 0%R : xr).
  generalize 0%R. induction l as [|x l IH]; intros a; simpl; [done|].
  apply IH.
Qed.

Lemma products_finite (xs ws : list R) :
  zip_with mul (Fin <$> xs : list xr) (Fin <$> ws) = Fin <$> zip_with Rmult xs ws.
Proof.
  revert ws. induction xs as [|x xs IH]; intros [|w ws]; simpl; [done..|].
  by rewrite IH.
Qed.

Lemma foldl_Rplus_positive (l : list R) (a : R) :
  (0 < a)%R → Forall (λ w, 0 < w)%R l → (0 < foldl Rplus a l)%R.
Proof.
  intros Ha Hpos. revert a Ha.
  induction Hpos as [|w l Hw _ IH]; intros a Ha; simpl; [done|].
  apply IH. lra.
Qed.

Lemma real_sum_positive (l : list R) :
  l ≠ [] → Forall (λ w, 0 < w)%R l → (0 < real_sum l)%R.
Proof.
  intros Hnil Hpos. unfold real_sum.
  destruct Hpos as [|w l Hw Hpos]; [done|]. simpl.
  apply foldl_Rplus_positive; [lra|done].
Qed.

Lemma gaussian_window_finite (degree : Z) :
  gaussian_window degree
  = Fin <$> (gaussian_weight degree <$> Py.range (- (degree - 1)) degree).
Proof. unfold gaussian_window. by rewrite <- list_fmap_compose. Qed.

Lemma gaussian_weights_sum_positive (degree : Z) :
  1 ≤ degree →
  (0 < real_sum (gaussian_weight degree <$> Py.range (- (degree - 1)) degree))%R.
Proof.
  intros Hd. apply real_sum_positive.
  - intros Hnil. apply (f_equal length) in Hnil.
    rewrite length_fmap, range_length in Hnil. simpl in Hnil. lia.
  - apply Forall_fmap, Forall_forall. intros i _. apply exp_pos.
Qed.

(** On finite samples the average is the real weighted average. *)
Lemma weighted_average_finite (degree : Z) (xs : list R) :
  1 ≤ degree →
  weighted_average (Fin <$> xs) (gaussian_window degree)
  = Fin (real_weighted_average xs
           (gaussian_weight degree <$> Py.range (- (degree - 1)) degree)).
Proof.
  intros Hd. unfold weighted_average, real_weighted_average.
  rewrite gaussian_window_finite, products_finite, !py_sum_finite.
  apply xr_div_fin, Rgt_not_eq, Rlt_gt.
  by apply gaussian_weights_sum_positive.
Qed.

Lemma smoothed_samples_lookup (self : LineScan xr) (degree : Z) :
  1 ≤ degree → 2 * degree - 1 ≤ Py.len (samples self) →
  let n := Py.len (samples self) in
  length (smoothed_samples self degree) = length (samples self) ∧
  (∀ j, 0 ≤ j < degree - 1 →
        smoothed_samples self degree !! Z.to_nat j = samples self !! Z.to_nat j) ∧
  (∀ j, n - degree ≤ j < n →
        smoothed_samples self degree !! Z.to_nat j = samples self !! Z.to_nat j) ∧
  (∀ j, degree - 1 ≤ j < n - degree →
        smoothed_samples self degree !! Z.to_nat j
        = Some (weighted_average (neighborhood self degree j)
                                 (gaussian_window degree))).
Proof.
  intros Hd Hn n. unfold smoothed_samples. fold n.
  set (head := take (Z.to_nat (degree - 1)) (samples self)).
  set (body := _ <$> Py.range 0 (n - (2 * degree - 1))).
  set (tail := drop (Z.to_nat (n - degree)) (samples self)).
  assert (length head = Z.to_nat (degree - 1)) as Hhead.
  { unfold head. rewrite length_take. unfold n, Py.len in *. lia. }
  assert (length body = Z.to_nat (n - (2 * degree - 1))) as Hbody.
  { unfold body. rewrite length_fmap, range_length. f_equal. lia. }
  assert (length tail = Z.to_nat degree) as Htail.
  { unfold tail. rewrite length_drop. unfold n, Py.len in *. lia. }
  repeat apply conj.
  - rewrite !length_app, Hhead, Hbody, Htail. unfold n, Py.len in *. lia.
  - intros j Hj. rewrite lookup_app_l by lia.
    unfold head. apply lookup_take_lt. lia.
  - intros j Hj. rewrite lookup_app_r by lia.
    rewrite lookup_app_r by lia. unfold tail. rewrite lookup_drop.
    f_equal. lia.
  - intros j Hj. rewrite lookup_app_r by lia. rewrite lookup_app_l by lia.
    unfold body. rewrite list_lookup_fmap. unfold Py.range.
    rewrite lookup_seqZ_lt by lia. simpl.
    replace (0 + Z.of_nat (Z.to_nat j - length head) + (degree - 1)) with j
      by lia.
    reflexivity.
Qed.

(** C4. For a degree of at least one and a window of [2 * degree - 1]
    samples that fits the line scan, [smooth] returns a line scan of the
    same length. Its first [degree - 1] and its last [degree] samples are
    those of the input. Every other sample [j] is the weighted average of
    the [2 * degree - 1] input samples centred at [j], the weight of
    offset [i] being [exp(-(4 * i / window)^2)], divided by the sum of the
    weights. *)
Theorem smooth_spec (self : LineScan xr) (degree : Z) :
  1 ≤ degree → 2 * degree - 1 ≤ Py.len (samples self) →
  let n := Py.len (samples self) in
  ∃ out,
    smooth self degree = Return out ∧
    length (samples out) = length (samples self) ∧
    (∀ j, 0 ≤ j < degree - 1 →
          samples out !! Z.to_nat j = samples self !! Z.to_nat j) ∧
    (∀ j, n - degree ≤ j < n →
          samples out !! Z.to_nat j = samples self !! Z.to_nat j) ∧
    (∀ j, degree - 1 ≤ j < n - degree →
          length (neighborhood self degree j) = Z.to_nat (2 * degree - 1) ∧
          neighborhood self degree j
          = take (Z.to_nat (2 * degree - 1))
                 (drop (Z.to_nat (j - (degree - 1))) (samples self)) ∧
          samples out !! Z.to_nat j
          = Some (weighted_average (neighborhood self degree j)
                                   (gaussian_window degree)) ∧
          ∀ xs, neighborhood self degree j = Fin <$> xs →
                samples out !! Z.to_nat j
                = Some (Fin (real_weighted_average xs
                               (gaussian_weight degree
                                  <$> Py.range (- (degree - 1)) degree)))).
Proof.
  intros Hd Hn n. eexists. split; [by apply smooth_returns|].
  rewrite update_samples, init_samples.
  destruct (smoothed_samples_lookup self degree Hd Hn)
    as (Hlen & Hhead & Htail & Hbody).
  repeat apply conj; [done..|].
  intros j Hj. repeat apply conj; [| |by apply Hbody|].
  - unfold neighborhood. rewrite slice_window_length by (fold n; lia).
    f_equal. lia.
  - unfold neighborhood. rewrite slice_window by (fold n; lia).
    do 2 f_equal. lia.
  - intros xs Hxs. rewrite Hbody by done.
    by rewrite Hxs, weighted_average_finite.
Qed.

(** Degree 2 on [10, 100, 200, 40, 50]: the window has three samples,
    indices 1 and 2 are smoothed, index 0 and indices 3 and 4 are kept. *)
Lemma smooth_spec_witness :
  let self := probe_r in
  let degree := 2 in
  1 ≤ degree ∧ 2 * degree - 1 ≤ Py.len (samples self) ∧
  ∃ out,
    smooth self degree = Return out ∧
    length (samples out) = length (samples self) ∧
    samples out !! 0%nat = Some (Fin 10%R) ∧
    samples out !! 3%nat = Some (Fin 40%R) ∧
    samples out !! 4%nat = Some (Fin 50%R) ∧
    samples out !! 2%nat
    = Some (weighted_average [Fin 100%R; Fin 200%R; Fin 40%R]
              [Fin (gaussian_weight 2 (-1)); Fin (gaussian_weight 2 0);
               Fin (gaussian_weight 2 1)]) ∧
    samples out !! 2%nat
    = Some (Fin ((0 + 100 * gaussian_weight 2 (-1) + 200 * gaussian_weight 2 0
                  + 40 * gaussian_weight 2 1)
                 / (0 + gaussian_weight 2 (-1) + gaussian_weight 2 0
                    + gaussian_weight 2 1))%R).
Proof.
  intros self degree.
  assert (1 ≤ degree) as Hd by (unfold degree; lia).
  assert (2 * degree - 1 ≤ Py.len (samples self)) as Hn by (vm_compute; discriminate).
  split; [done|]. split; [done|].
  destruct (smooth_spec self degree Hd Hn) as (out & Hout & Hlen & Hhead & Htail & Hbody).
  exists out. split; [done|]. split; [done|].
  repeat apply conj.
  - apply (Hhead 0). unfold degree. lia.
  - apply (Htail 3). vm_compute. split; discriminate || reflexivity.
  - apply (Htail 4). vm_compute. split; discriminate || reflexivity.
  - destruct (Hbody 2) as (_ & _ & Hmid & _);
      [vm_compute; split; discriminate || reflexivity|].
    exact Hmid.
  - destruct (Hbody 2) as (_ & _ & _ & Hreal);
      [vm_compute; split; discriminate || reflexivity|].
    exact (Hreal [100; 200; 40]%R eq_refl).
Defined.

(** ** Sliding median *)

Section median.
Context {V : Type} `{Num V}.
Implicit Types self : LineScan V.

Lemma force_odd_is_odd (size : Z) : force_odd size mod 2 = 1.
Proof.
  unfold force_odd. case_bool_decide as Heven.
  - rewrite Z.add_mod, Heven by lia. reflexivity.
  - pose proof (Z.mod_pos_bound size 2). lia.
Qed.

Lemma force_odd_cases (size : Z) :
  (size mod 2 = 0 ∧ force_odd size = size + 1) ∨
  (size mod 2 = 1 ∧ force_odd size = size).
Proof.
  unfold force_odd. case_bool_decide; [by left|right].
  pose proof (Z.mod_pos_bound size 2). lia.
Qed.

(** The samples of the result: a head, the medians, a tail. *)
Lemma median_samples self (size : Z) :
  let skip := force_odd size / 2 in
  samples (median self size)
  = Py.slice (samples self) (Some 0) (Some skip)
    ++ ((λ i, np_median (median_window self skip i))
          <$> Py.range skip (Py.len (samples self) - skip))
    ++ Py.slice (samples self) (Some (-1 * skip)) None.
Proof.
  intros skip. unfold median. rewrite update_samples, init_samples.
  fold skip. rewrite foldl_extend.
  rewrite (foldl_append (λ i, np_median (median_window self skip i))).
  by rewrite <- app_assoc.
Qed.

Lemma median_structure self (size : Z) :
  let skip := force_odd size / 2 in
  let n := Py.len (samples self) in
  1 ≤ skip → 2 * skip ≤ n →
  length (samples (median self size)) = length (samples self) ∧
  (∀ j, 0 ≤ j < skip →
        samples (median self size) !! Z.to_nat j = samples self !! Z.to_nat j) ∧
  (∀ j, n - skip ≤ j < n →
        samples (median self size) !! Z.to_nat j = samples self !! Z.to_nat j) ∧
  (∀ j, skip ≤ j < n - skip →
        samples (median self size) !! Z.to_nat j
        = Some (np_median (median_window self skip j))).
Proof.
  intros skip n Hskip Hn. rewrite median_samples. fold skip n.
  rewrite slice_prefix by lia.
  replace (-1 * skip) with (- skip) by lia.
  rewrite slice_suffix by (fold n; lia). fold n.
  set (head := take (Z.to_nat skip) (samples self)).
  set (body := _ <$> Py.range skip (n - skip)).
  set (tail := drop (Z.to_nat (n - skip)) (samples self)).
  assert (length head = Z.to_nat skip) as Hhead.
  { unfold head. rewrite length_take. unfold n, Py.len in *. lia. }
  assert (length body = Z.to_nat (n - 2 * skip)) as Hbody.
  { unfold body. rewrite length_fmap, range_length. f_equal. lia. }
  assert (length tail = Z.to_nat skip) as Htail.
  { unfold tail. rewrite length_drop. unfold n, Py.len in *. lia. }
  repeat apply conj.
  - rewrite !length_app, Hhead, Hbody, Htail. unfold n, Py.len in *. lia.
  - intros j Hj. rewrite lookup_app_l by lia.
    unfold head. apply lookup_take_lt. lia.
  - intros j Hj. rewrite lookup_app_r by lia.
    rewrite lookup_app_r by lia. unfold tail. rewrite lookup_drop.
    f_equal. lia.
  - intros j Hj. rewrite lookup_app_r by lia. rewrite lookup_app_l by lia.
    unfold body. rewrite list_lookup_fmap. unfold Py.range.
    rewrite lookup_seqZ_lt by lia. simpl.
    replace (skip + Z.of_nat (Z.to_nat j - length head)) with j by lia.
    reflexivity.
Qed.

End median.

(** C5. [median] does not always keep the length, and its windows are not
    centred. On [1, 2, 3] with size 5 the result has four samples. On
    [0, 0, 9, 9, 9] with size 3 the sample at index 2 is 9/2, the median
    of the two samples at indices 1 and 2, while the median of the three
    samples centred at index 2 is 9. *)
Lemma median_counterexample :
  let short : LineScan xq := __init__ (int <$> [1; 2; 3]) [] in
  let step : LineScan xq := __init__ (int <$> [0; 0; 9; 9; 9]) [] in
  samples (median short 5) = int <$> [1; 2; 2; 3] ∧
  length (samples (median short 5)) ≠ length (samples short) ∧
  samples (median step 3) !! 2%nat = Some (Fin (9 # 2)) ∧
  centered_window step 1 2 = int <$> [0; 9; 9] ∧
  np_median (centered_window step 1 2) = int 9 ∧
  samples (median step 3) !! 2%nat ≠ Some (np_median (centered_window step 1 2)).
Proof. vm_compute. repeat split; discriminate. Qed.

(** C5. [median] makes an even window size odd by adding one. When the
    odd size [w] has [floor(w / 2) >= 1] and the line scan holds at least
    [2 * floor(w / 2)] samples, the result has the length of the input and
    its first and last [floor(w / 2)] samples are those of the input. *)
Theorem median_spec {V} `{Num V} (self : LineScan V) (size : Z) :
  let w := force_odd size in
  let skip := w / 2 in
  let n := Py.len (samples self) in
  w mod 2 = 1 ∧
  (size mod 2 = 0 → w = size + 1) ∧
  (size mod 2 = 1 → w = size) ∧
  (1 ≤ skip → 2 * skip ≤ n →
   length (samples (median self size)) = length (samples self) ∧
   (∀ j, 0 ≤ j < skip →
         samples (median self size) !! Z.to_nat j = samples self !! Z.to_nat j) ∧
   (∀ j, n - skip ≤ j < n →
         samples (median self size) !! Z.to_nat j = samples self !! Z.to_nat j)).
Proof.
  intros w skip n. repeat apply conj.
  - apply force_odd_is_odd.
  - intros Heven. destruct (force_odd_cases size) as [[_ ?]|[? _]]; [done|lia].
  - intros Hodd. destruct (force_odd_cases size) as [[? _]|[_ ?]]; [lia|done].
  - intros Hskip Hn.
    destruct (median_structure self size Hskip Hn) as (? & ? & ? & _). done.
Qed.

(** Size 4 on [0, 0, 9, 9, 9]: the window becomes 5 and two samples are
    kept at either end. *)
Lemma median_spec_witness :
  let self : LineScan xq := __init__ (int <$> [0; 0; 9; 9; 9]) [] in
  4 mod 2 = 0 ∧ 1 ≤ force_odd 4 / 2 ∧
  2 * (force_odd 4 / 2) ≤ Py.len (samples self) ∧
  force_odd 4 = 5 ∧
  length (samples (median self 4)) = length (samples self) ∧
  samples (median self 4) !! 1%nat = Some (int 0) ∧
  samples (median self 4) !! 3%nat = Some (int 9).
Proof.
  intros self.
  destruct (median_spec self 4) as (_ & Heven & _ & Hshape).
  assert (4 mod 2 = 0) as H4 by reflexivity.
  assert (1 ≤ force_odd 4 / 2) as Hskip by (vm_compute; discriminate).
  assert (2 * (force_odd 4 / 2) ≤ Py.len (samples self)) as Hn
    by (vm_compute; discriminate).
  destruct (Hshape Hskip Hn) as (Hlen & Hhead & Htail).
  repeat apply conj.
  - exact H4.
  - exact Hskip.
  - exact Hn.
  - exact (Heven H4).
  - exact Hlen.
  - apply (Hhead 1). vm_compute. split; discriminate || reflexivity.
  - apply (Htail 3). vm_compute. split; discriminate || reflexivity.
Defined.

(** ** Local extrema *)

Section local_extrema.
Context {V : Type} `{Num V}.
Implicit Types self : LineScan V.

Lemma local_minima_empty self pts :
  point_loc self = PyPoints pts → local_minima self = Return [].
Proof. intros Hpts. unfold local_minima. rewrite Hpts. reflexivity. Qed.

Lemma local_maxmima_empty self pts :
  point_loc self = PyPoints pts → local_maxmima self = Return [].
Proof. intros Hpts. unfold local_maxmima. rewrite Hpts. reflexivity. Qed.

End local_extrema.

(** C6. [local_minima] and [local_maxmima] report nothing: the index array
    comes from [numpy.where(idx is True)], and the comparison of the array
    [idx] with [True] by identity is false whatever the samples are. Every
    line scan made by the constructor gets the empty list, also [3, 1, 3]
    with its local minimum at index 1 and [1, 3, 1] with its local maximum
    at index 1. *)
Theorem local_extrema_always_empty :
  (∀ (V : Type) (N : Num V) (args : list V) (kwargs : list (string * pyobj)),
     local_minima (__init__ args kwargs) = Return [] ∧
     local_maxmima (__init__ args kwargs) = Return []) ∧
  (is_local_minimum (int <$> [3; 1; 3]) 1 ∧
   local_minima (__init__ (int <$> [3; 1; 3]) []) = Return []) ∧
  (is_local_maximum (int <$> [1; 3; 1]) 1 ∧
   local_maxmima (__init__ (int <$> [1; 3; 1]) []) = Return []).
Proof.
  repeat apply conj; try reflexivity.
  - intros V N args kwargs. split.
    + eapply local_minima_empty, init_point_loc.
    + eapply local_maxmima_empty, init_point_loc.
  - exists (int 1). split; [reflexivity|]. split.
    + intros y _ Hy. injection Hy as <-. reflexivity.
    + intros y Hy. injection Hy as <-. reflexivity.
  - exists (int 3). split; [reflexivity|]. split.
    + intros y _ Hy. injection Hy as <-. reflexivity.
    + intros y Hy. injection Hy as <-. reflexivity.
Qed.

(** ** Peaks and valleys *)

Lemma for_each_fixed {A S} (body : S → A → result S) (s : S) (l : list A) :
  (∀ x, x ∈ l → body s x = Return s) → for_each body s l = Return s.
Proof.
  induction l as [|x l IH]; intros Hbody; simpl; [done|].
  rewrite Hbody by left. simpl. apply IH. intros y Hy. apply Hbody. by right.
Qed.

Lemma enumerate_index {A} (l : list A) (i : Z) (x : A) :
  (i, x) ∈ Py.enumerate l → 0 ≤ i < Py.len l.
Proof.
  unfold Py.enumerate, Py.range. intros Hin.
  apply elem_of_zip_l in Hin. apply elem_of_seqZ in Hin. lia.
Qed.

(** With a half-width of at least one, the neighbourhood of a valid index
    holds that index. *)
Lemma neighbourhood_nonempty {A} (l : list A) (width i : Z) :
  1 ≤ width → 0 ≤ i < Py.len l →
  Py.slice l (Some (Z.max 0 (i - width))) (Some (i + width)) ≠ [].
Proof.
  intros Hw Hi Hnil. apply (f_equal length) in Hnil. revert Hnil.
  unfold Py.slice, Py.adjust. simpl.
  destruct (Z.ltb_spec (Z.max 0 (i - width)) 0); [lia|].
  destruct (Z.ltb_spec (i + width) 0); [lia|].
  rewrite length_take, length_drop. unfold Py.len in *. simpl. lia.
Qed.

Lemma py_min_returns {V} `{Num V} (l : list V) :
  l ≠ [] → ∃ m, py_min l = Return m.
Proof. destruct l; [done|]. intros _. by eexists. Qed.

Lemma nothing_below_neg_inf {F} `{Field F} (x : num F) : lt x neg_inf = false.
Proof. by destruct x. Qed.

Lemma quot_2_ge_1 (window : Z) : 2 ≤ window → 1 ≤ Z.quot window 2.
Proof. intros Hw. apply (Z.quot_le_lower_bound window 2 1); lia. Qed.

(** C7. On [1, 5, 1, 5, 1, 5, 1] with window 2 and delta 1 the peak finder
    does not return the peaks (1, 5), (3, 5), (5, 5). *)
Lemma find_peaks_zigzag_counterexample :
  find_peaks zigzag 2 (int 1) ≠ Return [(1, int 5); (3, int 5); (5, int 5)].
Proof. vm_compute. discriminate. Qed.

(** C7. On [1, 5, 1, 5, 1, 5, 1] with window 2 and delta 1 the peak finder
    returns the empty list: from index 1 on, every neighbourhood
    [i - 1, i + 1) holds a 5, so the running maximum 5 never exceeds the
    neighbourhood maximum by more than delta. *)
Theorem find_peaks_zigzag : find_peaks zigzag 2 (int 1) = Return [].
Proof. vm_compute. reflexivity. Qed.

(** The peak finder does report a peak once the samples have stayed below
    it for a whole neighbourhood. *)
Example find_peaks_single :
  find_peaks (__init__ (int <$> [1; 9; 1; 1; 1; 1; 1]) []) 2 (int 1)
  = Return [(1, int 9)].
Proof. vm_compute. reflexivity. Qed.

(** C10. With window 1 the neighbourhoods of the valley finder are empty
    and [min] raises on the first sample. *)
Lemma find_valleys_counterexample :
  find_valleys (__init__ [int 1] []) 1 (int 1) = Raise ValueError ∧
  find_valleys (__init__ [int 1] []) 1 (int 1) ≠ Return [].
Proof. split; [reflexivity|discriminate]. Qed.

(** C10. For a window of at least two, and for an empty line scan, the
    valley finder returns the empty list whatever the samples and delta
    are: the running minimum starts at minus infinity, no sample is
    strictly below it, and no neighbourhood minimum less delta is. *)
Theorem find_valleys_empty {F} `{Field F}
    (self : LineScan (num F)) (window : Z) (delta : num F) :
  2 ≤ window ∨ samples self = [] →
  find_valleys self window delta = Return [].
Proof.
  intros Hw. unfold find_valleys.
  rewrite for_each_fixed; [done|].
  intros [i val] Hin. destruct Hw as [Hw|Hnil].
  - apply enumerate_index in Hin. unfold valley_step.
    rewrite nothing_below_neg_inf.
    destruct (py_min_returns
                (Py.slice (samples self)
                   (Some (Z.max 0 (i - Z.quot window 2)))
                   (Some (i + Z.quot window 2)))) as [m ->].
    { apply neighbourhood_nonempty; [by apply quot_2_ge_1|done]. }
    rewrite bind_Return. by rewrite nothing_below_neg_inf.
  - rewrite Hnil in Hin. by apply elem_of_nil in Hin.
Qed.

(** Window 2 on [1, 5, 1, 5, 1, 5, 1]. *)
Lemma find_valleys_empty_witness :
  (2 ≤ 2 ∨ samples zigzag = []) ∧ find_valleys zigzag 2 (int 1) = Return [].
Proof.
  assert (2 ≤ 2 ∨ samples zigzag = []) as Hw by (left; lia).
  split; [exact Hw|]. exact (find_valleys_empty zigzag 2 (int 1) Hw).
Defined.

(** ** Lookup tables *)

Section lut.
Context {V : Type} `{Num V}.
Implicit Types (self : LineScan V) (lut : list V).

Lemma index_in_range {A} (l : list A) (i : Z) :
  - Py.len l ≤ i < Py.len l →
  ∃ x, Py.index l i = Return x ∧ l !! position (Py.len l) i = Some x.
Proof.
  intros Hi. unfold Py.index, position.
  set (j := if i <? 0 then i + Py.len l else i).
  assert (0 ≤ j < Py.len l) as Hj.
  { unfold j. destruct (Z.ltb_spec i 0); lia. }
  destruct (Z.ltb_spec j 0); [lia|].
  destruct (lookup_lt_is_Some_2 l (Z.to_nat j)) as [x Hx].
  { unfold Py.len in *. lia. }
  exists x. by rewrite Hx.
Qed.

Lemma index_out_of_range {A} (l : list A) (i : Z) :
  ¬ (- Py.len l ≤ i < Py.len l) → Py.index l i = Raise IndexError.
Proof.
  intros Hi. unfold Py.index.
  set (j := if i <? 0 then i + Py.len l else i).
  destruct (Z.ltb_spec j 0); [done|].
  rewrite lookup_ge_None_2; [done|].
  unfold j, Py.len in *. destruct (Z.ltb_spec i 0); lia.
Qed.

Lemma getitem_integer lut (p : V) (i : Z) :
  as_index p = Some i → getitem lut p = Py.index lut i.
Proof. intros Hp. unfold getitem. by rewrite Hp. Qed.

(** The loop of [apply_lut] over samples that are integers. *)
Lemma lut_loop lut (ps : list V) (idxs : list Z) (out : list V) :
  Forall2 (λ p i, as_index p = Some i) ps idxs →
  let n := Py.len lut in
  let loop := for_each (λ out p, v ← getitem lut p; Return (out ++ [v])) in
  (Forall (λ i, - n ≤ i < n) idxs →
   ∃ vs, loop out ps = Return (out ++ vs) ∧
         Forall2 (λ i v, lut !! position n i = Some v) idxs vs) ∧
  (Exists (λ i, ¬ (- n ≤ i < n)) idxs → loop out ps = Raise IndexError).
Proof.
  intros Hidx n loop. revert out.
  induction Hidx as [|p i ps idxs Hp Hidx IH]; intros out; split.
  - intros _. exists []. by rewrite app_nil_r.
  - intros Hex. by apply Exists_nil in Hex.
  - intros Hall. apply Forall_cons in Hall as [Hi Hall].
    destruct (index_in_range lut i Hi) as (v & Hv & Hlook).
    destruct (IH (out ++ [v])) as [IHok _].
    destruct (IHok Hall) as (vs & Hloop & Hvs).
    exists (v :: vs). split; [|by constructor].
    unfold loop in *. cbn [for_each]. rewrite (getitem_integer lut p i Hp), Hv.
    rewrite !bind_Return, Hloop. by rewrite <- app_assoc.
  - intros Hex. unfold loop in *. cbn [for_each].
    rewrite (getitem_integer lut p i Hp).
    destruct (decide (- n ≤ i < n)) as [Hi|Hi].
    + destruct (index_in_range lut i Hi) as (v & -> & _).
      rewrite !bind_Return. apply IH.
      apply Exists_cons in Hex as [?|?]; done.
    + by rewrite index_out_of_range.
Qed.

End lut.

(** C8. A negative sample within [-len(table), 0) does not make
    [apply_lut] fail: the sample [-1] reads the last entry of the table. *)
Lemma apply_lut_negative_sample :
  let self : LineScan xq := __init__ [int (-1); int 0] [] in
  let table := [int 10; int 20] in
  as_index (int (-1)) = Some (-1) ∧
  ¬ (0 ≤ -1 < Py.len table) ∧
  (∃ out, apply_lut self table = Return out ∧
          samples out = [int 20; int 10]) ∧
  apply_lut self table ≠ Raise IndexError.
Proof.
  repeat apply conj; try reflexivity.
  - unfold Py.len. simpl. lia.
  - eexists. split; reflexivity.
  - discriminate.
Qed.

(** C8. For integer samples, [apply_lut] raises [IndexError] whenever some
    sample lies outside [-len(table), len(table)). Otherwise it returns a
    line scan whose [i]-th sample is [table[samples[i]]], where a negative
    sample counts from the end of the table; in particular samples in
    [0, len(table)) read [table] at their own value. *)
Theorem apply_lut_spec {V} `{Num V}
    (self : LineScan V) (lut : list V) (idxs : list Z) :
  Forall2 (λ p i, as_index p = Some i) (samples self) idxs →
  let n := Py.len lut in
  (Exists (λ i, ¬ (- n ≤ i < n)) idxs → apply_lut self lut = Raise IndexError) ∧
  (Forall (λ i, - n ≤ i < n) idxs →
   ∃ out, apply_lut self lut = Return out ∧
          Forall2 (λ i v, lut !! position n i = Some v) idxs (samples out) ∧
          Forall2 (λ i v, 0 ≤ i → lut !! Z.to_nat i = Some v)
                  idxs (samples out)).
Proof.
  intros Hidx n.
  destruct (lut_loop lut (samples self) idxs [] Hidx) as [Hok Hfail].
  split.
  - intros Hex. unfold apply_lut. by rewrite (Hfail Hex).
  - intros Hall. destruct (Hok Hall) as (vs & Hloop & Hvs).
    eexists. unfold apply_lut. rewrite Hloop, bind_Return.
    split; [reflexivity|]. rewrite update_samples, init_samples. simpl.
    split; [done|].
    eapply Forall2_impl; [exact Hvs|]. intros i v Hlook Hi.
    unfold position in Hlook. destruct (Z.ltb_spec i 0); [lia|done].
Qed.

(** The table [10, 20] applied to [-1, 0] and to [2, 0]. *)
Lemma apply_lut_spec_witness :
  let self : LineScan xq := __init__ [int (-1); int 0] [] in
  let table := [int 10; int 20] in
  Forall2 (λ p i, as_index p = Some i) (samples self) [-1; 0] ∧
  Forall (λ i, - Py.len table ≤ i < Py.len table) [-1; 0] ∧
  (∃ out, apply_lut self table = Return out ∧
          Forall2 (λ i v, table !! position (Py.len table) i = Some v)
                  [-1; 0] (samples out)) ∧
  Exists (λ i, ¬ (- Py.len table ≤ i < Py.len table)) [2; 0] ∧
  apply_lut (__init__ [int 2; int 0] []) table = Raise IndexError.
Proof.
  intros self table.
  assert (Forall2 (λ p i, as_index p = Some i) (samples self) [-1; 0]) as Hidx
    by (repeat constructor).
  assert (Forall (λ i, - Py.len table ≤ i < Py.len table) [-1; 0]) as Hall
    by (repeat (apply Forall_cons_2; [unfold table, Py.len; simpl; lia|]);
        apply Forall_nil_2).
  assert (Forall2 (λ p i, as_index p = Some i)
            (samples (__init__ [int 2; int 0] [] : LineScan xq)) [2; 0]) as Hidx'
    by (repeat constructor).
  assert (Exists (λ i, ¬ (- Py.len table ≤ i < Py.len table)) [2; 0]) as Hex
    by (left; unfold table, Py.len; simpl; lia).
  destruct (apply_lut_spec self table [-1; 0] Hidx) as [_ Hok].
  destruct (apply_lut_spec _ table [2; 0] Hidx') as [Hfail _].
  destruct (Hok Hall) as (out & Hout & Hvs & _).
  repeat apply conj; [exact Hidx|exact Hall|by exists out|exact Hex|exact (Hfail Hex)].
Defined.

(** * Further properties *)

(** ** Keyword arguments *)

Section keywords.
Context {V : Type}.
Implicit Types (self : LineScan V) (kwargs : list (string * pyobj)).



End keywords.


(** ** Subscripts *)

Section subscripts.
Context {V : Type}.
Implicit Types (self : LineScan V).

Lemma slice_empty {A} (l : list A) (i : Z) :
  Py.slice l (Some i) (Some i) = [].
Proof. unfold Py.slice. simpl. by rewrite Z.sub_diag. Qed.

Lemma index_nonneg {A} (l : list A) (i : Z) (x : A) :
  0 ≤ i → l !! Z.to_nat i = Some x → Py.index l i = Return x.
Proof.
  intros Hi Hx. unfold Py.index. cbv zeta.
  assert ((i <? 0) = false) as Hlt by (by apply Z.ltb_ge).
  rewrite Hlt. cbv iota. by rewrite Hlt, Hx.
Qed.

End subscripts.

(** X2. An integer subscript [i] of a line scan of [n] samples reads the
    sample at [i], or at [n + i] when [i] is negative, for [i] in
    [-n, n), and raises [IndexError] for every other [i]. *)
Theorem getitem_index {V} (self : LineScan V) (i : Z) :
  let n := Py.len (samples self) in
  __getitem__ self (Index i)
  = match (if bool_decide (- n ≤ i < n)
           then samples self !! position n i else None) with
    | Some x => Return (Sample x)
    | None => Raise IndexError
    end.
Proof.
  intros n. simpl. case_bool_decide as Hi.
  - destruct (index_in_range (samples self) i Hi) as (x & -> & Hx).
    fold n in Hx. by rewrite Hx.
  - by rewrite index_out_of_range.
Qed.

(** X3. A slice with bounds [0 <= a <= b <= n] is a line scan of [b - a]
    samples, and its sample [i] is the sample [a + i] of the line scan it
    was cut from. *)
Theorem getitem_slice_index {V} (self : LineScan V) (a b i : Z) :
  0 ≤ a → a ≤ b → b ≤ Py.len (samples self) → 0 ≤ i < b - a →
  ∃ out, __getitem__ self (Slice (Some a) (Some b)) = Return (Scan out) ∧
         Py.len (samples out) = b - a ∧
         __getitem__ out (Index i) = __getitem__ self (Index (a + i)) ∧
         ∃ x, __getitem__ out (Index i) = Return (Sample x).
Proof.
  intros Ha Hab Hb Hi. eexists. split; [reflexivity|].
  rewrite init_samples.
  assert (length (Py.slice (samples self) (Some a) (Some b)) = Z.to_nat (b - a))
    as Hlen by (by apply slice_window_length).
  split; [unfold Py.len; lia|].
  destruct (lookup_lt_is_Some_2 (samples self) (Z.to_nat (a + i))) as [x Hx].
  { unfold Py.len in *. lia. }
  assert (Py.slice (samples self) (Some a) (Some b) !! Z.to_nat i = Some x) as Hx'.
  { rewrite slice_window by done. rewrite lookup_take_lt by lia.
    rewrite lookup_drop. rewrite <- Hx. f_equal. lia. }
  cbn [__getitem__]. rewrite init_samples.
  rewrite (index_nonneg _ i x), (index_nonneg _ (a + i) x) by (done || lia).
  split; [done|]. by exists x.
Qed.

(** The slice [1:3] of [1, 5, 1, 5, 1, 5, 1] at subscript 1. *)
Lemma getitem_slice_index_witness :
  ∃ out, __getitem__ zigzag (Slice (Some 1) (Some 3)) = Return (Scan out) ∧
         Py.len (samples out) = 3 - 1 ∧
         __getitem__ out (Index 1) = __getitem__ zigzag (Index (1 + 1)) ∧
         ∃ x, __getitem__ out (Index 1) = Return (Sample x).
Proof.
  apply (getitem_slice_index zigzag 1 3 1); vm_compute;
    (discriminate || (split; discriminate || reflexivity)).
Defined.

(** ** Elementwise arithmetic, continued *)

Section arithmetic_more.
Context {V : Type} `{Num V}.
Implicit Types self other out : LineScan V.


End arithmetic_more.

(** X4. On two line scans of one length, [+], [-] and [*] print nothing
    and return a line scan of that length that holds the sums, differences
    or products of the paired samples and has the metadata of the left
    operand. *)
Theorem elementwise_arithmetic {V} `{Num V} (self other : LineScan V) :
  length (samples self) = length (samples other) →
  Forall (λ '(method, op),
            ∃ out, method self other = ([], Return (Some out)) ∧
                   samples out = zip_with op (samples self) (samples other) ∧
                   length (samples out) = length (samples self) ∧
                   same_metadata out self)
         [(__add__, add); (__sub__, sub); (__mul__, mul)].
Proof.
  intros Hlen.
  destruct (elementwise_returns self other Hlen)
    as ((o1 & Ho1 & Hs1) & (o2 & Ho2 & Hs2) & (o3 & Ho3 & Hs3)).
  repeat apply Forall_cons_2; [..|apply Forall_nil_2].
  - exists o1. split; [done|]. split; [done|]. split.
    + rewrite Hs1, length_zip_with. lia.
    + eapply add_metadata. by rewrite Ho1.
  - exists o2. split; [done|]. split; [done|]. split.
    + rewrite Hs2, length_zip_with. lia.
    + eapply sub_metadata. by rewrite Ho2.
  - exists o3. split; [done|]. split; [done|]. split.
    + rewrite Hs3, length_zip_with. lia.
    + eapply mul_metadata. by rewrite Ho3.
Qed.

(** The operators on [10, 100, 200] and itself. *)
Lemma elementwise_arithmetic_witness :
  length (samples probe) = length (samples probe) ∧
  Forall (λ '(method, op),
            ∃ out, method probe probe = ([], Return (Some out)) ∧
                   samples out = zip_with op (samples probe) (samples probe) ∧
                   length (samples out) = length (samples probe) ∧
                   same_metadata out probe)
         [(__add__, add); (__sub__, sub); (__mul__, mul)].
Proof.
  split; [reflexivity|]. exact (elementwise_arithmetic probe probe eq_refl).
Defined.



(** ** Threshold and inversion *)

Lemma foldl_choose {A B} (g : B → bool) (a b : A) (out : list A) (l : list B) :
  foldl (λ out p, if g p then out ++ [a] else out ++ [b]) out l
  = out ++ ((λ p, if g p then a else b) <$> l).
Proof.
  revert out. induction l as [|x l IH]; intros out; simpl.
  - by rewrite app_nil_r.
  - destruct (g x); rewrite IH; by rewrite <- app_assoc.
Qed.

Section point_transforms.
Context {V : Type} `{Num V}.
Implicit Types self : LineScan V.

Lemma threshold_samples self (cutoff : V) (inverted : bool) :
  samples (threshold self cutoff inverted)
  = (λ p, if xorb (lt p cutoff) inverted then of_Z 0 else of_Z 255)
      <$> samples self.
Proof.
  unfold threshold. destruct inverted; rewrite update_samples, init_samples;
    rewrite foldl_choose; simpl; apply list_fmap_ext; intros _ p _;
    by destruct (lt p cutoff).
Qed.

Lemma invert_samples self (max : V) :
  samples (invert self max) = (λ p, sub (of_Z 255) p) <$> samples self.
Proof.
  unfold invert. rewrite update_samples, init_samples.
  by rewrite (foldl_append (λ p, sub (of_Z 255) p)).
Qed.

End point_transforms.



(** X6. [threshold] returns a line scan of the same length whose samples
    are all 0 or 255: without [invert] a sample below the cutoff becomes 0
    and any other sample 255; with [invert] the two values change places.
    The metadata is that of the input. *)
Theorem threshold_binary {V} `{Num V}
    (self : LineScan V) (cutoff : V) (inverted : bool) :
  let out := threshold self cutoff inverted in
  length (samples out) = length (samples self) ∧
  (∀ (i : nat) p, samples self !! i = Some p →
     samples out !! i
     = Some (if lt p cutoff
             then (if inverted then of_Z 255 else of_Z 0)
             else (if inverted then of_Z 0 else of_Z 255))) ∧
  Forall (λ v, v = of_Z 0 ∨ v = of_Z 255) (samples out) ∧
  same_metadata out self.
Proof.
  intros out. unfold out.
  split; [by rewrite threshold_samples, length_fmap|].
  split.
  { intros i p Hp. rewrite threshold_samples, list_lookup_fmap, Hp. simpl.
    by destruct (lt p cutoff), inverted. }
  split.
  { rewrite threshold_samples. apply Forall_fmap, Forall_forall.
    intros p _. simpl. destruct (xorb _ _); auto. }
  unfold threshold. destruct inverted; apply update_same_metadata.
Qed.

(** The cutoff 100 on [10, 100, 200]. *)
Lemma threshold_binary_witness :
  samples probe !! 0%nat = Some (int 10) ∧
  samples (threshold probe (int 100) false) !! 0%nat = Some (int 0).
Proof.
  destruct (threshold_binary probe (int 100) false) as (_ & Hlook & _).
  assert (samples probe !! 0%nat = Some (int 10)) as Hp by reflexivity.
  split; [exact Hp|]. exact (Hlook 0%nat (int 10) Hp).
Defined.


(** X8. On rational samples, inverting a thresholded line scan gives the
    samples of the threshold taken with [invert] set. *)
Theorem invert_threshold (self : LineScan xq) (cutoff max : xq) :
  samples (invert (threshold self cutoff false) max)
  = samples (threshold self cutoff true).
Proof.
  rewrite invert_samples, !threshold_samples, <- list_fmap_compose.
  apply list_fmap_ext. intros _ p _. simpl.
  by destruct (IEEE.lt p cutoff).
Qed.

(** ** Sliding median, continued *)

(** X9. For an odd size [w] with [skip = floor(w / 2) >= 1] that fits the
    line scan, the sample of [median] at an index [j] between the kept
    ends is the median of the [2 * skip] input samples at
    [j - skip, ..., j + skip - 1]. *)
Theorem median_interior {V} `{Num V} (self : LineScan V) (size j : Z) :
  let skip := force_odd size / 2 in
  let n := Py.len (samples self) in
  1 ≤ skip → 2 * skip ≤ n → skip ≤ j < n - skip →
  length (median_window self skip j) = Z.to_nat (2 * skip) ∧
  median_window self skip j
  = take (Z.to_nat (2 * skip)) (drop (Z.to_nat (j - skip)) (samples self)) ∧
  samples (median self size) !! Z.to_nat j
  = Some (np_median (median_window self skip j)).
Proof.
  intros skip n Hskip Hn Hj.
  destruct (median_structure self size Hskip Hn) as (_ & _ & _ & Hmid).
  repeat apply conj; [| |by apply Hmid].
  - unfold median_window. rewrite slice_window_length by (fold n; lia).
    f_equal. lia.
  - unfold median_window. rewrite slice_window by (fold n; lia).
    do 2 f_equal. lia.
Qed.

(** Size 3 on [0, 0, 9, 9, 9] at index 2: the median of [0, 9]. *)
Lemma median_interior_witness :
  let self : LineScan xq := __init__ (int <$> [0; 0; 9; 9; 9]) [] in
  1 ≤ force_odd 3 / 2 ∧ 2 * (force_odd 3 / 2) ≤ Py.len (samples self) ∧
  force_odd 3 / 2 ≤ 2 < Py.len (samples self) - force_odd 3 / 2 ∧
  median_window self 1 2 = [int 0; int 9] ∧
  samples (median self 3) !! 2%nat = Some (np_median [int 0; int 9]).
Proof.
  intros self.
  assert (1 ≤ force_odd 3 / 2) as H1 by (vm_compute; discriminate).
  assert (2 * (force_odd 3 / 2) ≤ Py.len (samples self)) as H2
    by (vm_compute; discriminate).
  assert (force_odd 3 / 2 ≤ 2 < Py.len (samples self) - force_odd 3 / 2) as H3
    by (vm_compute; split; discriminate || reflexivity).
  destruct (median_interior self 3 2 H1 H2 H3) as (_ & Hwin & Hmid).
  repeat apply conj; try done.
Defined.

Lemma slice_from_start {A} (l : list A) : Py.slice l (Some 0) None = l.
Proof.
  unfold Py.slice, Py.adjust. cbn [from_option].
  change (0 <? 0) with false. cbv iota.
  rewrite Z.min_l by (unfold Py.len; lia).
  rewrite Z.sub_0_r. change (Z.to_nat 0) with 0%nat. rewrite drop_0.
  apply take_ge. unfold Py.len. lia.
Qed.

(** X10. With size 0 or 1 nothing is kept at the ends and every window is
    empty: [median] returns twice as many samples as it was given, a [nan]
    for every input sample followed by the input samples. *)
Theorem median_size_one {V} `{Num V} (self : LineScan V) (size : Z) :
  size = 0 ∨ size = 1 →
  samples (median self size)
  = replicate (length (samples self)) nan ++ samples self.
Proof.
  intros Hsize. rewrite median_samples.
  assert (force_odd size / 2 = 0) as -> by (destruct Hsize as [->| ->]; reflexivity).
  rewrite slice_empty. change (-1 * 0) with 0. rewrite app_nil_l. f_equal.
  - unfold Py.range. rewrite !Z.sub_0_r. unfold Py.len.
    rewrite seqZ_as_seq, Nat2Z.id, <- list_fmap_compose.
    rewrite (const_fmap _ _ nan); [by rewrite length_seq|].
    intros _ i _. unfold compose. cbv beta. unfold median_window.
    rewrite Z.add_0_r, Z.sub_0_r. by rewrite slice_empty.
  - apply slice_from_start.
Qed.

(** Size 1 on [1, 2, 3]. *)
Lemma median_size_one_witness :
  let self : LineScan xq := __init__ (int <$> [1; 2; 3]) [] in
  (1 = 0 ∨ 1 = 1) ∧
  samples (median self 1) = [NaN; NaN; NaN; int 1; int 2; int 3].
Proof.
  intros self. assert (1 = 0 ∨ 1 = 1) as Hs by (by right).
  split; [done|]. exact (median_size_one self 1 Hs).
Defined.

(** ** Gaussian smoothing at the edges of its domain *)

Lemma slice_suffix_clipped {A} (l : list A) (k : Z) :
  0 < k → Py.slice l (Some (- k)) None = drop (Z.to_nat (Py.len l - k)) l.
Proof.
  intros Hk. unfold Py.slice, Py.adjust. simpl. unfold Py.len.
  destruct (Z.ltb_spec (- k) 0); [|lia].
  replace (Z.to_nat (0 `max` (- k + Z.of_nat (length l))))
    with (Z.to_nat (Z.of_nat (length l) - k)) by lia.
  apply take_ge. rewrite length_drop. lia.
Qed.

Lemma slice_to_negative_length {A} (l : list A) (w : Z) :
  w < 0 →
  length (Py.slice l (Some 0) (Some w)) = Z.to_nat (Py.len l + w).
Proof.
  intros Hw. unfold Py.slice, Py.adjust. simpl. unfold Py.len.
  destruct (Z.ltb_spec w 0); [|lia].
  rewrite length_take, length_drop. lia.
Qed.

Section smooth_edges.
Context {V : Type} `{Num V} `{Exp V}.
Implicit Types self : LineScan V.

Lemma smooth_nonpositive_degree self (degree : Z) :
  degree ≤ 0 →
  smooth self degree
  = Raise (if bool_decide (3 - 2 * degree ≤ Py.len (samples self))
           then ValueError else ZeroDivisionError).
Proof.
  intros Hd. unfold smooth.
  set (window := degree * 2 - 1). set (n := Py.len (samples self)).
  assert (window < 0) as Hw by (unfold window; lia).
  assert (Py.range 0 window = []) as ->.
  { unfold Py.range, seqZ. by rewrite Z2Nat.nonpos by lia. }
  assert (Py.repeat (of_Z 1) window = []) as ->.
  { unfold Py.repeat. by rewrite Z2Nat.nonpos by lia. }
  cbn [fmap list_fmap]. rewrite (np_mul_same_length [] []) by done.
  rewrite bind_Return. cbn [zip_with].
  assert (Py.len (Py.repeat (of_Z 0) (n - window)) = n - window) as ->.
  { unfold Py.len at 1. rewrite repeat_length. unfold n, Py.len in *. lia. }
  unfold Py.range. rewrite Z.sub_0_r.
  rewrite seqZ_cons by (unfold n, Py.len in *; lia).
  cbn [for_each]. rewrite Z.add_0_l.
  pose proof (slice_to_negative_length (samples self) window Hw) as Hlen.
  fold n in Hlen.
  destruct (Py.slice (samples self) (Some 0) (Some window))
    as [|x [|y l]] eqn:Hslice; simpl in Hlen.
  - rewrite bool_decide_eq_false_2 by lia. reflexivity.
  - rewrite bool_decide_eq_false_2 by lia. reflexivity.
  - rewrite bool_decide_eq_true_2 by lia. reflexivity.
Qed.

Lemma smooth_wide_window self (degree : Z) :
  1 ≤ degree → Py.len (samples self) < 2 * degree - 1 →
  smooth self degree
  = Return (_update
              (__init__ (take (Z.to_nat (degree - 1)) (samples self)
                         ++ drop (Z.to_nat (Py.len (samples self) - degree))
                                 (samples self))
                        (provenance self))
              self).
Proof.
  intros Hd Hn. unfold smooth.
  set (window := degree * 2 - 1). set (n := Py.len (samples self)).
  rewrite np_mul_same_length
    by (rewrite length_fmap, range_length, repeat_length; f_equal; lia).
  rewrite bind_Return.
  assert (Py.repeat (of_Z 0) (n - window) = []) as ->.
  { unfold Py.repeat. by rewrite Z2Nat.nonpos by (unfold window, n; lia). }
  change (Py.range 0 (Py.len (@nil V))) with (@nil Z).
  cbn [for_each]. rewrite bind_Return, app_nil_r.
  rewrite slice_prefix by lia.
  replace (-1 * degree) with (- degree) by lia.
  by rewrite slice_suffix_clipped by lia.
Qed.

End smooth_edges.

(** X11. [smooth] fails for every degree below one, on every line scan:
    the weight array is empty, and the first step of the loop raises
    [ValueError] when at least [3 - 2 * degree] samples are there (the
    product of the arrays is rejected) and [ZeroDivisionError]
    otherwise. *)
Theorem smooth_degree_below_one {V} `{Num V} `{Exp V}
    (self : LineScan V) (degree : Z) :
  degree ≤ 0 →
  smooth self degree
  = Raise (if bool_decide (3 - 2 * degree ≤ Py.len (samples self))
           then ValueError else ZeroDivisionError).
Proof. apply smooth_nonpositive_degree. Qed.

(** Degree 0 on five real samples and on two. *)
Lemma smooth_degree_below_one_witness :
  0 ≤ 0 ∧
  smooth probe_r 0 = Raise ValueError ∧
  smooth (__init__ [Fin 1%R; Fin 2%R] [] : LineScan xr) 0
  = Raise ZeroDivisionError.
Proof.
  assert (0 ≤ 0) as Hd by lia.
  split; [done|]. split.
  - rewrite (smooth_degree_below_one probe_r 0 Hd). reflexivity.
  - rewrite (smooth_degree_below_one _ 0 Hd). reflexivity.
Defined.

(** X12. When the degree is at least one but the window of
    [2 * degree - 1] samples is longer than the line scan, [smooth] does
    not fail and smooths nothing: it returns the first [degree - 1]
    samples followed by the last [degree] samples (all of them when there
    are fewer), so a non-empty input comes back longer than it was. *)
Theorem smooth_window_too_wide {V} `{Num V} `{Exp V}
    (self : LineScan V) (degree : Z) :
  let n := Py.len (samples self) in
  1 ≤ degree → n < 2 * degree - 1 →
  ∃ out,
    smooth self degree = Return out ∧
    samples out = take (Z.to_nat (degree - 1)) (samples self)
                  ++ drop (Z.to_nat (n - degree)) (samples self) ∧
    Py.len (samples out) = Z.min (degree - 1) n + Z.min degree n ∧
    (0 < n → n < Py.len (samples out)).
Proof.
  intros n Hd Hn. eexists. split; [by apply smooth_wide_window|].
  rewrite update_samples, init_samples. fold n. split; [done|].
  assert (Py.len (take (Z.to_nat (degree - 1)) (samples self)
                  ++ drop (Z.to_nat (n - degree)) (samples self))
          = Z.min (degree - 1) n + Z.min degree n) as Hlen.
  { unfold Py.len. rewrite length_app, length_take, length_drop.
    unfold n, Py.len in *. lia. }
  split; [done|]. rewrite Hlen. lia.
Qed.

(** Degree 4 on five real samples: three from the front, four from the
    back. *)
Lemma smooth_window_too_wide_witness :
  1 ≤ 4 ∧ Py.len (samples probe_r) < 2 * 4 - 1 ∧
  ∃ out,
    smooth probe_r 4 = Return out ∧
    samples out = Fin <$> [10; 100; 200; 100; 200; 40; 50]%R ∧
    Py.len (samples probe_r) < Py.len (samples out).
Proof.
  assert (1 ≤ 4) as Hd by lia.
  assert (Py.len (samples probe_r) < 2 * 4 - 1) as Hn by reflexivity.
  split; [done|]. split; [done|].
  destruct (smooth_window_too_wide probe_r 4 Hd Hn)
    as (out & Hout & Hs & _ & Hlonger).
  exists out. split; [done|]. split; [exact Hs|].
  apply Hlonger. reflexivity.
Defined.

(** ** Convolution *)

Section convolution.
Context {V : Type} `{Num V}.
Implicit Types self : LineScan V.

Lemma np_convolve_same_length (a v out : list V) :
  np_convolve_same a v = Return out →
  Py.len out = Z.max (Py.len a) (Py.len v).
Proof.
  unfold np_convolve_same. destruct a as [|x a], v as [|y v]; try done.
  set (a' := x :: a). set (v' := y :: v).
  destruct (Z.ltb_spec (Py.len a') (Py.len v')); intros [= <-];
    unfold Py.len at 1; rewrite length_fmap, range_length;
    unfold Py.len in *; lia.
Qed.

Lemma slice_single {A} (l : list A) (k : Z) (x : A) :
  0 ≤ k → l !! Z.to_nat k = Some x → Py.slice l (Some k) (Some (k + 1)) = [x].
Proof.
  intros Hk Hx. pose proof (lookup_lt_Some _ _ _ Hx) as Hlt.
  rewrite slice_window by (unfold Py.len; lia).
  rewrite (drop_S l x _ Hx). replace (k + 1 - k) with 1 by lia. done.
Qed.

End convolution.

Lemma mul_one_xq (x : xq) : mul x (int 1) = x.
Proof.
  destruct x as [[n d]| | |]; try reflexivity.
  simpl. unfold Qmult. simpl. by rewrite Z.mul_1_r, Pos.mul_1_r.
Qed.

(** X13. [convolve] raises [ValueError] when the line scan or the kernel
    is empty. Otherwise it returns a line scan whose length is the larger
    of the two lengths, so a kernel longer than the line scan makes the
    result longer than the input; the pixel locations are the identity
    mapping over the result. *)
Theorem convolve_length {V} `{Num V} (self : LineScan V) (kernel : list V) :
  (samples self = [] ∨ kernel = [] → convolve self kernel = Raise ValueError) ∧
  (samples self ≠ [] → kernel ≠ [] →
   ∃ out, convolve self kernel = Return out ∧
          Py.len (samples out)
          = Z.max (Py.len (samples self)) (Py.len kernel) ∧
          point_loc out = identity_locs (Py.len (samples out))).
Proof.
  split.
  - intros Hnil. unfold convolve, np_convolve_same.
    destruct Hnil as [-> | ->]; [done|]. by destruct (samples self).
  - intros Hs Hk. unfold convolve.
    destruct (np_convolve_same (samples self) kernel) as [out|e] eqn:Hout.
    + rewrite bind_Return. eexists. split; [reflexivity|].
      rewrite init_samples, init_point_loc.
      split; [by apply np_convolve_same_length|done].
    + unfold np_convolve_same in Hout.
      destruct (samples self), kernel; try done.
      by destruct (_ <? _) in Hout.
Qed.

(** The kernel [1, 1, 1, 1, 1] on three samples. *)
Lemma convolve_length_witness :
  let kernel := int <$> [1; 1; 1; 1; 1] in
  convolve probe [] = Raise ValueError ∧
  samples probe ≠ [] ∧ kernel ≠ [] ∧
  ∃ out, convolve probe kernel = Return out ∧
         Py.len (samples out) = 5 ∧
         point_loc out = PyPoints [(0, 0); (1, 1); (2, 2); (3, 3); (4, 4)].
Proof.
  intros kernel.
  destruct (convolve_length probe []) as [Hfail _].
  destruct (convolve_length probe kernel) as [_ Hok].
  assert (samples probe ≠ []) as Hs by discriminate.
  assert (kernel ≠ []) as Hk by discriminate.
  split; [apply Hfail; by right|]. split; [done|]. split; [done|].
  destruct (Hok Hs Hk) as (out & Hout & Hlen & Hloc).
  exists out. split; [done|]. split; [exact Hlen|].
  rewrite Hloc, Hlen. reflexivity.
Defined.

(** X14. The kernel [1] is the unit of [convolve] on rational samples: a
    non-empty line scan comes back with its samples unchanged. *)
Theorem convolve_unit_kernel (self : LineScan xq) :
  samples self ≠ [] →
  ∃ out, convolve self [int 1] = Return out ∧ samples out = samples self.
Proof.
  intros Hs. unfold convolve, np_convolve_same.
  destruct (samples self) as [|x a] eqn:Hsamples; [done|].
  set (a' := x :: a).
  assert ((Py.len a' <? Py.len [int 1]) = false) as ->.
  { apply Z.ltb_ge. unfold Py.len. simpl. lia. }
  rewrite bind_Return. eexists. split; [reflexivity|].
  rewrite init_samples.
  replace ((Py.len [int 1] - 1) / 2) with 0 by reflexivity.
  unfold Py.range. rewrite Z.add_0_l, Z.sub_0_r.
  apply list_eq. intros i. rewrite list_lookup_fmap.
  destruct (a' !! i) as [y|] eqn:Hy.
  - pose proof (lookup_lt_Some _ _ _ Hy) as Hlt.
    rewrite lookup_seqZ_lt by (unfold Py.len; lia). simpl. f_equal.
    unfold convolve_at. rewrite Z.add_0_l.
    replace (Z.max 0 (Z.of_nat i - Py.len [int 1] + 1)) with (Z.of_nat i)
      by (unfold Py.len; simpl; lia).
    replace (Z.min (Py.len a') (Z.of_nat i + 1)) with (Z.of_nat i + 1)
      by (unfold Py.len; lia).
    rewrite (slice_single a' (Z.of_nat i) y) by (rewrite ?Nat2Z.id; done || lia).
    replace (Z.of_nat i - (Z.of_nat i + 1) + 1) with 0 by lia.
    replace (Z.of_nat i - Z.of_nat i + 1) with 1 by lia.
    change (Py.slice [int 1] (Some 0) (Some 1)) with [int 1].
    change (reverse [int 1]) with [int 1].
    unfold np_dot. cbn [zip_with foldl]. apply mul_one_xq.
  - apply lookup_ge_None in Hy.
    rewrite lookup_seqZ_ge by (unfold Py.len; lia). done.
Qed.

(** The kernel [1] on [10, 100, 200]. *)
Lemma convolve_unit_kernel_witness :
  samples probe ≠ [] ∧
  ∃ out, convolve probe [int 1] = Return out ∧ samples out = samples probe.
Proof.
  assert (samples probe ≠ []) as Hs by discriminate.
  split; [done|]. exact (convolve_unit_kernel probe Hs).
Defined.

(** ** Normalization and scaling over the reals *)

Lemma xr_lt_true (a b : R) : (a < b)%R → lt (Fin a : xr) (Fin b) = true.
Proof. intros Hab. simpl. by destruct (Rlt_dec a b). Qed.

Lemma xr_lt_false (a b : R) : ¬ (a < b)%R → lt (Fin a : xr) (Fin b) = false.
Proof. intros Hab. simpl. by destruct (Rlt_dec a b). Qed.

Lemma np_maximum_finite (a b : R) :
  np_maximum (Fin a : xr) (Fin b) = Fin (Rmax a b).
Proof.
  unfold np_maximum. change (is_nan (Fin ?x : xr)) with false. cbv iota.
  unfold Rmax. destruct (Rlt_dec a b) as [Hlt|Hge].
  - rewrite xr_lt_true by done. destruct (Rle_dec a b); [done|lra].
  - rewrite xr_lt_false by done. destruct (Rle_dec a b); [f_equal; lra|done].
Qed.

Lemma np_minimum_finite (a b : R) :
  np_minimum (Fin a : xr) (Fin b) = Fin (Rmin a b).
Proof.
  unfold np_minimum. change (is_nan (Fin ?x : xr)) with false. cbv iota.
  unfold Rmin. destruct (Rlt_dec b a) as [Hlt|Hge].
  - rewrite xr_lt_true by done. destruct (Rle_dec a b); [lra|done].
  - rewrite xr_lt_false by done. destruct (Rle_dec a b); [done|f_equal; lra].
Qed.

Lemma foldl_np_maximum_finite (x : R) (l : list R) :
  foldl np_maximum (Fin x : xr) (Fin <$> l) = Fin (foldl Rmax x l).
Proof.
  revert x. induction l as [|y l IH]; intros x; cbn [fmap list_fmap foldl];
    [done|].
  rewrite np_maximum_finite. apply IH.
Qed.

Lemma foldl_np_minimum_finite (x : R) (l : list R) :
  foldl np_minimum (Fin x : xr) (Fin <$> l) = Fin (foldl Rmin x l).
Proof.
  revert x. induction l as [|y l IH]; intros x; cbn [fmap list_fmap foldl];
    [done|].
  rewrite np_minimum_finite. apply IH.
Qed.

Lemma np_max_finite (x : R) (l : list R) :
  np_max (Fin <$> (x :: l) : list xr) = Return (Fin (real_max x l)).
Proof.
  unfold np_max, real_max. cbn [fmap list_fmap].
  by rewrite foldl_np_maximum_finite.
Qed.

Lemma np_min_finite (x : R) (l : list R) :
  np_min (Fin <$> (x :: l) : list xr) = Return (Fin (real_min x l)).
Proof.
  unfold np_min, real_min. cbn [fmap list_fmap].
  by rewrite foldl_np_minimum_finite.
Qed.

Lemma real_max_elem (x : R) (l : list R) : real_max x l ∈ x :: l.
Proof.
  unfold real_max. revert x. induction l as [|y l IH]; intros x; simpl.
  - by left.
  - specialize (IH (Rmax x y)). apply elem_of_cons in IH as [->|IH].
    + unfold Rmax. destruct (Rle_dec x y); [right; left|left].
    + right. by right.
Qed.

Lemma real_min_elem (x : R) (l : list R) : real_min x l ∈ x :: l.
Proof.
  unfold real_min. revert x. induction l as [|y l IH]; intros x; simpl.
  - by left.
  - specialize (IH (Rmin x y)). apply elem_of_cons in IH as [->|IH].
    + unfold Rmin. destruct (Rle_dec x y); [left|right; left].
    + right. by right.
Qed.







Lemma signed_inf_zero_difference (s : R) :
  IEEE.signed_inf (F:=R) (s - s)%R = NaN.
Proof.
  unfold IEEE.signed_inf, IEEE.is_pos, IEEE.is_neg, IEEE.zero. simpl.
  destruct (Rlt_dec 0 (s - s)); [lra|].
  destruct (Rlt_dec (s - s) 0); [lra|done].
Qed.

Lemma signed_inf_not_finite (p y : R) : IEEE.signed_inf (F:=R) p ≠ Fin y.
Proof.
  unfold IEEE.signed_inf. by destruct (IEEE.is_pos p), (IEEE.is_neg p).
Qed.

Lemma div_by_zero_difference (p s : R) :
  true_div (Fin p : xr) (Fin (s - s)%R) = IEEE.signed_inf p.
Proof.
  simpl. unfold IEEE.div, IEEE.zero. simpl.
  destruct (Req_dec_T (s - s) 0) as [_|Hne]; [done|lra].
Qed.

Lemma special_times_zero_difference (v w : xr) (s : R) :
  (∀ y, v ≠ Fin y) → add (mul v (Fin (s - s)%R)) w = NaN.
Proof.
  intros Hv. destruct v as [y| | |]; simpl.
  - by destruct (Hv y).
  - by rewrite signed_inf_zero_difference.
  - by rewrite signed_inf_zero_difference.
  - done.
Qed.

(** X17. A degenerate range does not make [scale] or [normalize] fail:
    on a constant finite signal [scale] returns [nan] for every sample,
    and on an all-zero signal so does [normalize]. *)
Theorem degenerate_range_gives_nan (self : LineScan xr) (c lo hi : R) (k : nat) :
  samples self = replicate (S k) (Fin c) →
  (∃ out, scale self [Fin lo; Fin hi] = Return out ∧
          samples out = replicate (S k) NaN) ∧
  (c = 0%R → ∃ out, normalize self = Return out ∧
                    samples out = replicate (S k) NaN).
Proof.
  intros Hs.
  assert (samples self = Fin <$> (c :: replicate k c)) as Hfin.
  { rewrite Hs. symmetry. apply (fmap_replicate Fin (S k) c). }
  assert (real_max c (replicate k c) = c) as Hmax.
  { unfold real_max. clear. induction k as [|k IH]; [done|]. simpl.
    rewrite Rmax_left by lra. apply IH. }
  assert (real_min c (replicate k c) = c) as Hmin.
  { unfold real_min. clear. induction k as [|k IH]; [done|]. simpl.
    rewrite Rmin_left by lra. apply IH. }
  split.
  - eexists. split.
    + unfold scale. rewrite Hfin, np_max_finite, np_min_finite, !bind_Return.
      change [Fin lo; Fin hi] with (Fin <$> [lo; hi] : list xr).
      rewrite np_min_finite, np_max_finite, !bind_Return. reflexivity.
    + rewrite update_samples, init_samples, Hmax, Hmin, <- Hfin, Hs.
      rewrite fmap_replicate. f_equal.
      change (sub (Fin ?p : xr) (Fin ?q)) with (Fin (p - q)%R : xr).
      rewrite div_by_zero_difference.
      apply special_times_zero_difference. intros y.
      apply signed_inf_not_finite.
  - intros ->. eexists. split.
    + unfold normalize. rewrite Hfin, np_max_finite, bind_Return.
      reflexivity.
    + rewrite update_samples, init_samples, Hmax, <- Hfin, Hs.
      rewrite fmap_replicate. f_equal.
      replace 0%R with (0 - 0)%R at 2 by lra.
      rewrite div_by_zero_difference.
      replace 0%R with (0 - 0)%R by lra.
      apply signed_inf_zero_difference.
Qed.

(** Three samples of value 0. *)
Lemma degenerate_range_gives_nan_witness :
  let self : LineScan xr := __init__ (replicate 3 (Fin 0%R)) [] in
  samples self = replicate 3 (Fin 0%R) ∧
  (∃ out, scale self [Fin 0%R; Fin 1%R] = Return out ∧
          samples out = [NaN; NaN; NaN]) ∧
  (∃ out, normalize self = Return out ∧ samples out = [NaN; NaN; NaN]).
Proof.
  intros self.
  assert (samples self = replicate 3 (Fin 0%R)) as Hs by reflexivity.
  destruct (degenerate_range_gives_nan self 0%R 0%R 1%R 2 Hs) as [Hscale Hnorm].
  split; [done|]. split; [exact Hscale|]. exact (Hnorm eq_refl).
Defined.

(** X18. [normalize], [scale], [minima] and [maxima] raise [ValueError]
    on an empty line scan, and [scale] also on an empty range: the maximum
    and the minimum of an empty array do not exist. *)
Theorem empty_extremes_raise {V} `{Num V} `{Compare V}
    (self : LineScan V) (val_range : list V) :
  (samples self = [] →
   normalize self = Raise ValueError ∧ scale self val_range = Raise ValueError ∧
   minima self = Raise ValueError ∧ maxima self = Raise ValueError) ∧
  (val_range = [] → scale self val_range = Raise ValueError).
Proof.
  split.
  - intros Hs. unfold normalize, scale, minima, maxima. by rewrite Hs.
  - intros ->. unfold scale. by destruct (samples self).
Qed.

(** The empty line scan, and [10, 100, 200] with an empty range. *)
Lemma empty_extremes_raise_witness :
  let empty : LineScan xq := __init__ [] [] in
  samples empty = [] ∧
  normalize empty = Raise ValueError ∧
  scale empty [int 0; int 1] = Raise ValueError ∧
  minima empty = Raise ValueError ∧
  maxima empty = Raise ValueError ∧
  scale probe [] = Raise ValueError.
Proof.
  intros empty.
  destruct (empty_extremes_raise empty [int 0; int 1]) as [Hempty _].
  destruct (empty_extremes_raise probe []) as [_ Hrange].
  destruct (Hempty eq_refl) as (Hn & Hs & Hlo & Hhi).
  split; [reflexivity|]. split; [exact Hn|]. split; [exact Hs|].
  split; [exact Hlo|]. split; [exact Hhi|].
  exact (Hrange eq_refl).
Defined.

(** ** Lookup tables, continued *)

Section fill.
Context {V : Type} `{Num V} `{Compare V}.

Lemma fill_lut_lookup (lut : list V) (idxs : list Z) (value : V) :
  length (fill_lut lut idxs value) = length lut ∧
  ∀ i : nat,
    fill_lut lut idxs value !! i
    = if bool_decide (Z.of_nat i ∈ idxs ∧ (i < length lut)%nat)
      then Some (np_clip value (of_Z 0) (of_Z 255))
      else lut !! i.
Proof.
  unfold fill_lut. set (val := np_clip value (of_Z 0) (of_Z 255)).
  revert lut. induction idxs as [|idx idxs IH]; intros lut.
  - split; [done|]. intros i. rewrite bool_decide_eq_false_2; [done|].
    intros [Hin _]. by apply elem_of_nil in Hin.
  - cbn [foldl].
    set (lut' := if bool_decide (0 ≤ idx < Py.len lut)
                 then <[Z.to_nat idx := val]> lut else lut).
    assert (length lut' = length lut) as Hlen.
    { unfold lut'. case_bool_decide; [apply length_insert|done]. }
    destruct (IH lut') as [IHlen IHlook]. split; [by rewrite IHlen|].
    intros i. rewrite IHlook, Hlen.
    destruct (decide (i < length lut)%nat) as [Hi|Hi].
    + destruct (decide (idx = Z.of_nat i)) as [->|Hne].
      * rewrite (bool_decide_eq_true_2 (Z.of_nat i ∈ Z.of_nat i :: idxs ∧ _))
          by (split; [left|done]).
        case_bool_decide; [done|]. unfold lut'.
        rewrite bool_decide_eq_true_2 by (unfold Py.len; lia).
        rewrite Nat2Z.id. by apply list_lookup_insert_eq.
      * assert (lut' !! i = lut !! i) as ->.
        { unfold lut'. case_bool_decide; [|done].
          apply list_lookup_insert_ne. lia. }
        rewrite (bool_decide_ext (Z.of_nat i ∈ idxs ∧ (i < length lut)%nat)
                   (Z.of_nat i ∈ idx :: idxs ∧ (i < length lut)%nat));
          [done|].
        rewrite elem_of_cons. split; [tauto|].
        intros [[?|?] ?]; [congruence|tauto].
    + rewrite !bool_decide_eq_false_2 by (intros [_ ?]; done).
      unfold lut'. case_bool_decide; [|done].
      rewrite list_lookup_insert_ne; [done|]. 
      unfold Py.len in *. lia.
Qed.

End fill.

Lemma lt_int (a b : Z) : lt (int a) (int b) = (a <? b).
Proof.
  simpl. unfold Qle_bool. simpl. rewrite !Z.mul_1_r.
  by rewrite Z.ltb_antisym.
Qed.

Lemma clip_int (z : Z) :
  np_clip (int z) (of_Z 0) (of_Z 255) = int (Z.max 0 (Z.min z 255)).
Proof.
  unfold np_clip, np_maximum, np_minimum.
  change (of_Z ?k : xq) with (int k).
  change (is_nan (int ?k)) with false. cbv iota.
  rewrite lt_int. destruct (Z.ltb_spec z 0).
  - change (is_nan (int ?k)) with false. cbv iota. rewrite lt_int.
    destruct (Z.ltb_spec 255 0); [lia|]. f_equal. f_equal. lia.
  - change (is_nan (int ?k)) with false. cbv iota. rewrite lt_int.
    destruct (Z.ltb_spec 255 z); do 2 f_equal; lia.
Qed.

Lemma as_index_int (z : Z) : as_index (int z) = Some z.
Proof.
  simpl. rewrite Qcanon.Qred_identity by (simpl; apply Z.gcd_1_r).
  reflexivity.
Qed.

(** X19. [fill_lut] keeps the length of the table. An entry whose index
    is listed in [idxs] holds the value clipped to [0, 255]; every other
    entry is unchanged. Listed indices outside the table, negative ones
    included, have no effect. *)
Theorem fill_lut_spec {V} `{Num V} `{Compare V}
    (lut : list V) (idxs : list Z) (value : V) :
  length (fill_lut lut idxs value) = length lut ∧
  (∀ i : nat,
     fill_lut lut idxs value !! i
     = if bool_decide (Z.of_nat i ∈ idxs ∧ (i < length lut)%nat)
       then Some (np_clip value (of_Z 0) (of_Z 255))
       else lut !! i) ∧
  (Forall (λ idx, ¬ (0 ≤ idx < Py.len lut)) idxs →
   fill_lut lut idxs value = lut).
Proof.
  destruct (fill_lut_lookup lut idxs value) as [Hlen Hlook].
  split; [done|]. split; [done|].
  intros Hout. apply list_eq. intros i. rewrite Hlook.
  rewrite bool_decide_eq_false_2; [done|].
  intros [Hin Hi]. rewrite Forall_forall in Hout.
  apply (Hout _ Hin). unfold Py.len. lia.
Qed.

(** The indices [-1, 7] on a table of four entries. *)
Lemma fill_lut_spec_witness :
  let lut := int <$> [0; 1; 2; 3] in
  Forall (λ idx, ¬ (0 ≤ idx < Py.len lut)) [-1; 7] ∧
  fill_lut lut [-1; 7] (int 9) = lut.
Proof.
  intros lut.
  assert (Forall (λ idx, ¬ (0 ≤ idx < Py.len lut)) [-1; 7]) as Hout.
  { repeat (apply Forall_cons_2; [unfold lut, Py.len; simpl; lia|]).
    apply Forall_nil_2. }
  split; [exact Hout|].
  destruct (fill_lut_spec lut [-1; 7] (int 9)) as (_ & _ & Hsame).
  exact (Hsame Hout).
Defined.

(** X20. With an integer value [z] on rational tables, the entry
    [fill_lut] stores is [z] clipped to [0, 255]: [max(0, min(z, 255))]. *)
Theorem fill_lut_clips (lut : list xq) (idxs : list Z) (z : Z) (i : nat) :
  Z.of_nat i ∈ idxs → (i < length lut)%nat →
  fill_lut lut idxs (int z) !! i = Some (int (Z.max 0 (Z.min z 255))).
Proof.
  intros Hin Hi. destruct (fill_lut_lookup lut idxs (int z)) as [_ Hlook].
  rewrite Hlook, bool_decide_eq_true_2 by done. by rewrite clip_int.
Qed.

(** The value 300 at index 1 of a table of four entries. *)
Lemma fill_lut_clips_witness :
  let lut := int <$> [0; 1; 2; 3] in
  Z.of_nat 1 ∈ [1; 7] ∧ (1 < length lut)%nat ∧
  fill_lut lut [1; 7] (int 300) !! 1%nat = Some (int 255).
Proof.
  intros lut.
  assert (Z.of_nat 1 ∈ [1; 7]) as Hin by left.
  assert (1 < length lut)%nat as Hi by (unfold lut; simpl; lia).
  split; [done|]. split; [done|].
  exact (fill_lut_clips lut [1; 7] 300 1 Hin Hi).
Defined.


(** X21. The identity table [0, 1, ..., k - 1] leaves integer samples in
    [0, k) as they are: [apply_lut] returns a line scan with the samples
    and the metadata of its input. *)
Theorem apply_identity_lut (self : LineScan xq) (zs : list Z) (k : Z) :
  samples self = int <$> zs → Forall (λ z, 0 ≤ z < k) zs →
  ∃ out, apply_lut self (int <$> seqZ 0 k) = Return out ∧
         samples out = samples self ∧ same_metadata out self.
Proof.
  intros Hs Hzs. set (lut := int <$> seqZ 0 k).
  assert (Py.len lut = Z.max 0 k) as Hlen.
  { unfold Py.len, lut. rewrite length_fmap, length_seqZ. lia. }
  assert (Forall2 (λ p i, as_index p = Some i) (samples self) zs) as Hidx.
  { rewrite Hs. apply Forall2_fmap_l, Forall_Forall2_diag, Forall_forall.
    intros z _. apply as_index_int. }
  destruct (lut_loop lut (samples self) zs [] Hidx) as [Hok _].
  destruct Hok as (vs & Hloop & Hvs).
  { eapply Forall_impl; [exact Hzs|]. intros z Hz. simpl in Hz. lia. }
  assert (vs = int <$> zs) as ->.
  { clear Hloop Hidx Hs. induction Hvs as [|z v zs vs Hv Hvs IH]; [done|].
    apply Forall_cons in Hzs as [Hz Hzs]. cbn [fmap list_fmap]. f_equal.
    - unfold position, lut in Hv. destruct (Z.ltb_spec z 0); [lia|].
      rewrite list_lookup_fmap, lookup_seqZ_lt in Hv by lia.
      simpl in Hv. injection Hv as <-. do 2 f_equal. lia.
    - by apply IH. }
  eexists. unfold apply_lut. fold lut. rewrite Hloop, bind_Return.
  split; [reflexivity|].
  split; [by rewrite update_samples, init_samples, Hs|].
  apply update_same_metadata.
Qed.

(** The table [0, ..., 255] on [10, 100, 200]. *)
Lemma apply_identity_lut_witness :
  samples probe = int <$> [10; 100; 200] ∧
  Forall (λ z, 0 ≤ z < 256) [10; 100; 200] ∧
  ∃ out, apply_lut probe (int <$> seqZ 0 256) = Return out ∧
         samples out = samples probe.
Proof.
  assert (samples probe = int <$> [10; 100; 200]) as Hs by reflexivity.
  assert (Forall (λ z, 0 ≤ z < 256) [10; 100; 200]) as Hzs.
  { repeat (apply Forall_cons_2; [lia|]). apply Forall_nil_2. }
  split; [done|]. split; [done|].
  destruct (apply_identity_lut probe _ 256 Hs Hzs) as (out & Hout & Hsame & _).
  by exists out.
Defined.




(** ** Searching for a value *)

Lemma head_where_from (i : Z) (mask : list bool) :
  match head (where_from i mask) with
  | Some j => ∃ k : nat, j = i + Z.of_nat k ∧ mask !! k = Some true ∧
                         Forall (λ b, b = false) (take k mask)
  | None => Forall (λ b, b = false) mask
  end.
Proof.
  revert i. induction mask as [|b mask IH]; intros i; simpl; [done|].
  destruct b; simpl.
  - exists 0%nat. split; [lia|]. split; [done|]. constructor.
  - specialize (IH (i + 1)). destruct (head (where_from (i + 1) mask)) as [j|].
    + destruct IH as (k & -> & Hk & Hbefore). exists (S k).
      split; [lia|]. split; [done|]. by constructor.
    + by constructor.
Qed.

Lemma last_where_from (i : Z) (mask : list bool) :
  match last (where_from i mask) with
  | Some j => ∃ k : nat, j = i + Z.of_nat k ∧ mask !! k = Some true ∧
                         Forall (λ b, b = false) (drop (S k) mask)
  | None => Forall (λ b, b = false) mask
  end.
Proof.
  revert i. induction mask as [|b mask IH]; intros i; simpl; [done|].
  specialize (IH (i + 1)).
  destruct b.
  - rewrite last_cons. destruct (last (where_from (i + 1) mask)) as [j|].
    + destruct IH as (k & -> & Hk & Hafter). exists (S k).
      split; [lia|]. by split.
    + exists 0%nat. split; [lia|]. split; [done|]. by rewrite drop_0.
  - destruct (last (where_from (i + 1) mask)) as [j|].
    + destruct IH as (k & -> & Hk & Hafter). exists (S k).
      split; [lia|]. by split.
    + by constructor.
Qed.

Lemma guarded_head (vals : list Z) :
  (if bool_decide (0 < Py.len vals) then head vals else None) = head vals.
Proof. by destruct vals. Qed.

Lemma guarded_last (vals : list Z) :
  (if bool_decide (0 < Py.len vals) then last vals else None) = last vals.
Proof.
  destruct vals as [|v vals]; [done|].
  rewrite bool_decide_eq_true_2; [done|]. unfold Py.len. simpl. lia.
Qed.

Lemma mask_lookup {V} (test : V → bool) (l : list V) (k : nat) :
  (test <$> l) !! k = Some true ↔ ∃ x, l !! k = Some x ∧ test x = true.
Proof.
  rewrite list_lookup_fmap. destruct (l !! k) as [x|]; simpl.
  - split; [intros [= Hx]; by exists x|]. by intros (y & [= <-] & ->).
  - split; [done|]. by intros (? & ? & _).
Qed.

Lemma mask_all_false {V} (test : V → bool) (l : list V) :
  Forall (λ b, b = false) (test <$> l) ↔ Forall (λ x, test x = false) l.
Proof. by rewrite Forall_fmap. Qed.

Lemma first_passing {V} (test : V → bool) (l : list V) :
  match head (np_where (test <$> l)) with
  | Some j =>
      ∃ (k : nat) (x : V), j = Z.of_nat k ∧ l !! k = Some x ∧
        test x = true ∧ Forall (λ y, test y = false) (take k l)
  | None => Forall (λ y, test y = false) l
  end.
Proof.
  unfold np_where. pose proof (head_where_from 0 (test <$> l)) as Hh.
  destruct (head _) as [j|].
  - destruct Hh as (k & -> & Hk & Hbefore).
    apply mask_lookup in Hk as (x & Hx & Heq).
    exists k, x. split; [lia|]. split; [exact Hx|]. split; [exact Heq|].
    rewrite <- fmap_take in Hbefore. exact (proj1 (mask_all_false _ _) Hbefore).
  - exact (proj1 (mask_all_false _ _) Hh).
Qed.

Lemma last_passing {V} (test : V → bool) (l : list V) :
  match last (np_where (test <$> l)) with
  | Some j =>
      ∃ (k : nat) (x : V), j = Z.of_nat k ∧ l !! k = Some x ∧
        test x = true ∧ Forall (λ y, test y = false) (drop (S k) l)
  | None => Forall (λ y, test y = false) l
  end.
Proof.
  unfold np_where. pose proof (last_where_from 0 (test <$> l)) as Hl.
  destruct (last _) as [j|].
  - destruct Hl as (k & -> & Hk & Hafter).
    apply mask_lookup in Hk as (x & Hx & Heq).
    exists k, x. split; [lia|]. split; [exact Hx|]. split; [exact Heq|].
    rewrite <- fmap_drop in Hafter. exact (proj1 (mask_all_false _ _) Hafter).
  - exact (proj1 (mask_all_false _ _) Hl).
Qed.

Lemma find_first_index_equal_head {V} `{Num V} `{Compare V}
    (self : LineScan V) (value : V) :
  find_first_index_equal self value
  = head (np_where ((λ x, equal x value) <$> samples self)).
Proof. unfold find_first_index_equal. cbv zeta. apply guarded_head. Qed.

Lemma find_first_index_greater_head {V} `{Num V} `{Compare V}
    (self : LineScan V) (value : V) :
  find_first_index_greater self value
  = head (np_where ((λ x, greater_equal x value) <$> samples self)).
Proof. unfold find_first_index_greater. cbv zeta. apply guarded_head. Qed.

(** X23. [find_first_index_equal] returns the least index whose sample
    passes [== value], and [find_first_index_greater] the least index whose
    sample passes [>= value]: the sample there passes the test and no
    sample before it does. Each returns [None] exactly when no sample
    passes its test. *)
Theorem find_first_index_least {V} `{Num V} `{Compare V}
    (self : LineScan V) (value : V) :
  match find_first_index_equal self value with
  | Some j =>
      ∃ (k : nat) (x : V), j = Z.of_nat k ∧ samples self !! k = Some x ∧
        equal x value = true ∧
        Forall (λ y, equal y value = false) (take k (samples self))
  | None => Forall (λ y, equal y value = false) (samples self)
  end ∧
  match find_first_index_greater self value with
  | Some j =>
      ∃ (k : nat) (x : V), j = Z.of_nat k ∧ samples self !! k = Some x ∧
        greater_equal x value = true ∧
        Forall (λ y, greater_equal y value = false) (take k (samples self))
  | None => Forall (λ y, greater_equal y value = false) (samples self)
  end.
Proof.
  rewrite find_first_index_equal_head, find_first_index_greater_head.
  split.
  - exact (first_passing (λ x, equal x value) (samples self)).
  - exact (first_passing (λ x, greater_equal x value) (samples self)).
Qed.

(** X24. [find_last_index_equal] returns the greatest index whose sample
    equals the value: no sample after it passes [==]. It returns [None]
    exactly when no sample passes. *)
Theorem find_last_index_equal_greatest {V} `{Num V} `{Compare V}
    (self : LineScan V) (value : V) :
  match find_last_index_equal self value with
  | Some j =>
      ∃ (k : nat) (x : V), j = Z.of_nat k ∧ samples self !! k = Some x ∧
        equal x value = true ∧
        Forall (λ y, equal y value = false) (drop (S k) (samples self))
  | None => Forall (λ y, equal y value = false) (samples self)
  end.
Proof.
  unfold find_last_index_equal. cbv zeta. rewrite guarded_last.
  exact (last_passing (λ x, equal x value) (samples self)).
Qed.

Lemma where_from_all_false (i : Z) (mask : list bool) :
  Forall (λ b, b = false) mask → where_from i mask = [].
Proof.
  intros Hall. revert i. induction Hall as [|b mask -> _ IH]; intros i; [done|].
  simpl. apply IH.
Qed.

(** X25. A search for [nan] finds nothing, whatever the samples are: all
    three search methods return [None]. *)
Theorem search_for_nan {F} `{Field F} (self : LineScan (num F)) :
  find_first_index_equal self NaN = None ∧
  find_last_index_equal self NaN = None ∧
  find_first_index_greater self NaN = None.
Proof.
  unfold find_first_index_equal, find_last_index_equal,
    find_first_index_greater, np_where. cbv zeta.
  rewrite !where_from_all_false; [done|..];
    apply Forall_fmap, Forall_forall; intros x _; by destruct x.
Qed.

(** X26. Whenever a value is found by [find_first_index_equal] on
    rational samples, [find_first_index_greater] finds an index too, and
    one that is not later: equality satisfies its [>=] test. *)
Theorem greater_accepts_equal (self : LineScan xq) (value : xq) (j : Z) :
  find_first_index_equal self value = Some j →
  ∃ j', find_first_index_greater self value = Some j' ∧ 0 ≤ j' ≤ j.
Proof.
  intros Hj.
  pose proof (first_passing (λ x, equal x value) (samples self)) as He.
  pose proof (first_passing (λ x, greater_equal x value) (samples self)) as Hg.
  rewrite <- find_first_index_equal_head in He.
  rewrite <- find_first_index_greater_head in Hg.
  cbv beta in He, Hg. rewrite Hj in He. destruct He as (k & x & -> & Hx & Heq & _).
  assert (greater_equal x value = true) as Hge.
  { destruct x as [x| | |], value as [v| | |]; try done.
    simpl in *. apply Qeq_bool_iff in Heq.
    apply negb_true_iff. destruct (f_ltb x v) eqn:Hlt; [|done].
    exfalso. revert Hlt. simpl. unfold Qle_bool.
    rewrite negb_true_iff, Z.leb_gt. unfold Qeq in Heq. lia. }
  destruct (find_first_index_greater self value) as [j'|].
  - destruct Hg as (k' & x' & -> & Hx' & _ & Hbefore).
    eexists. split; [done|]. split; [lia|].
    destruct (decide (k' ≤ k)%nat) as [|Hgt]; [lia|]. exfalso.
    rewrite Forall_lookup in Hbefore.
    specialize (Hbefore k x). rewrite lookup_take_lt in Hbefore by lia.
    specialize (Hbefore Hx). cbv beta in Hbefore. congruence.
  - rewrite Forall_lookup in Hg. specialize (Hg k x Hx). cbv beta in Hg.
    congruence.
Qed.

(** The value 100 in [10, 100, 200]. *)
Lemma greater_accepts_equal_witness :
  find_first_index_equal probe (int 100) = Some 1 ∧
  ∃ j', find_first_index_greater probe (int 100) = Some j' ∧ 0 ≤ j' ≤ 1.
Proof.
  assert (find_first_index_equal probe (int 100) = Some 1) as Hj
    by (vm_compute; reflexivity).
  split; [exact Hj|].
  exact (greater_accepts_equal probe (int 100) 1 Hj).
Defined.

(** ** Global extrema *)

Lemma where_from_elem (i : Z) (mask : list bool) (j : Z) :
  j ∈ where_from i mask ↔ ∃ k : nat, j = i + Z.of_nat k ∧ mask !! k = Some true.
Proof.
  revert i. induction mask as [|b mask IH]; intros i; simpl.
  - split; [by intros ?%elem_of_nil|]. by intros (k & _ & ?).
  - assert (j ∈ where_from (i + 1) mask ↔
            ∃ k : nat, j = i + Z.of_nat (S k) ∧ mask !! k = Some true) as IH'.
    { rewrite IH. split; intros (k & -> & Hk); exists k; split; (lia || done). }
    destruct b.
    + rewrite elem_of_cons, IH'. split.
      * intros [->|(k & -> & Hk)]; [exists 0%nat|exists (S k)]; split;
          (lia || done).
      * intros ([|k] & -> & Hk); [left; lia|right; by exists k].
    + rewrite IH'. split.
      * intros (k & -> & Hk). by exists (S k).
      * intros ([|k] & -> & Hk); [done|by exists k].
Qed.

Lemma np_take_in_range {A} (l : list A) (idxs : list Z) :
  Forall (λ i, 0 ≤ i < Py.len l) idxs →
  ∃ xs, np_take l idxs = Return xs ∧
        Forall2 (λ i x, l !! Z.to_nat i = Some x) idxs xs.
Proof.
  unfold np_take. induction 1 as [|i idxs Hi _ (xs & IH & Hxs)].
  - by exists [].
  - destruct (index_in_range l i) as (x & Hx & Hlook); [lia|].
    unfold position in Hlook. destruct (Z.ltb_spec i 0); [lia|].
    exists (x :: xs). split; [|by constructor].
    cbn [mapM]. by rewrite Hx, bind_Return, IH.
Qed.

Lemma zip3_constant {A B C} (R : A → C → Prop)
    (idxs : list A) (c : B) (ps : list C) (j : A) (v : B) (p : C) :
  Forall2 R idxs ps →
  (j, v, p) ∈ zip3 idxs (replicate (length idxs) c) ps ↔
  v = c ∧ ∃ n : nat, idxs !! n = Some j ∧ ps !! n = Some p.
Proof.
  intros Hlen%Forall2_length. unfold zip3. rewrite list_elem_of_lookup. split.
  - intros (n & Hn). apply lookup_zip_with_Some in Hn as (jv & p' & Heq & Hjv & Hp).
    apply lookup_zip_with_Some in Hjv as (j' & v' & -> & Hj & Hv).
    injection Heq as -> -> ->. apply lookup_replicate in Hv as [-> _].
    split; [done|]. by exists n.
  - intros (-> & n & Hj & Hp). exists n.
    apply lookup_zip_with_Some. exists (j, c), p. split; [done|]. split; [|done].
    apply lookup_zip_with_Some. exists j, c. split; [done|]. split; [done|].
    apply lookup_replicate. split; [done|]. by apply lookup_lt_Some in Hj.
Qed.

Lemma pair_of_projections (ps : list (Z * Z)) : (λ p, (p.1, p.2)) <$> ps = ps.
Proof. induction ps as [|[a b] ps IH]; [done|]. cbn. by rewrite IH. Qed.

(** The tuples [minima] and [maxima] build once the extreme value [m] is
    known. *)
Lemma extreme_listing {V} `{Num V} `{Compare V}
    (l : list V) (m : V) (pts : list (Z * Z)) :
  (length l ≤ length pts)%nat →
  let idxs := np_where ((λ x, equal x m) <$> l) in
  ∃ out,
    (pts ← np_take pts idxs;
     let pts := (λ p, (p.1, p.2)) <$> pts in
     Return (zip3 idxs (replicate (length idxs) (mul (of_Z 1) m)) pts))
    = Return out ∧
    ∀ j v p, (j, v, p) ∈ out ↔
      v = mul (of_Z 1) m ∧
      ∃ (k : nat) (x : V), j = Z.of_nat k ∧ l !! k = Some x ∧
                           equal x m = true ∧ pts !! k = Some p.
Proof.
  intros Hlen idxs.
  assert (∀ j, j ∈ idxs ↔
               ∃ (k : nat) (x : V), j = Z.of_nat k ∧ l !! k = Some x ∧
                                    equal x m = true) as Hidxs.
  { intros j. unfold idxs, np_where. rewrite where_from_elem. split.
    - intros (k & -> & Hk). apply mask_lookup in Hk as (x & Hx & Hm).
      exists k, x. split; [lia|]. by split.
    - intros (k & x & -> & Hx & Hm). exists k. split; [lia|].
      apply mask_lookup. by exists x. }
  destruct (np_take_in_range pts idxs) as (ps & Htake & Hps).
  { apply Forall_forall. intros j (k & x & -> & Hx & _)%Hidxs.
    apply lookup_lt_Some in Hx. unfold Py.len. lia. }
  eexists. rewrite Htake, bind_Return. cbv zeta. split; [reflexivity|].
  intros j v p. rewrite pair_of_projections, (zip3_constant _ _ _ _ _ _ _ Hps).
  split.
  - intros (-> & n & Hj & Hp). split; [done|].
    destruct (proj1 (Hidxs j)) as (k & x & -> & Hx & Hm).
    { apply list_elem_of_lookup. by exists n. }
    exists k, x. split; [done|]. split; [done|]. split; [done|].
    pose proof (Forall2_lookup_lr _ _ _ _ _ _ Hps Hj Hp) as Hlook.
    simpl in Hlook. by rewrite Nat2Z.id in Hlook.
  - intros (-> & k & x & -> & Hx & Hm & Hp). split; [done|].
    destruct (proj1 (list_elem_of_lookup idxs (Z.of_nat k))) as (n & Hn).
    { apply Hidxs. by exists k, x. }
    exists n. split; [done|].
    destruct (Forall2_lookup_l _ _ _ _ _ Hps Hn) as (p' & Hp' & Hlook).
    simpl in Hlook. rewrite Nat2Z.id in Hlook. congruence.
Qed.

Lemma xr_equal (a b : R) : equal (Fin a : xr) (Fin b) = true ↔ a = b.
Proof. simpl. destruct (Req_dec_T a b); split; (done || congruence). Qed.

Lemma xr_times_one (a : R) : mul (of_Z 1) (Fin a : xr) = Fin a.
Proof.
  change (mul (of_Z 1) (Fin a : xr)) with (Fin (1 * a)%R : xr).
  f_equal. lra.
Qed.

Lemma finite_extreme_listing (l : list R) (m : R) (pts : list (Z * Z))
    (out : list (Z * xr * (Z * Z))) :
  m ∈ l → (length l ≤ length pts)%nat →
  (∀ j v p, (j, v, p) ∈ out ↔
     v = mul (of_Z 1) (Fin m : xr) ∧
     ∃ (k : nat) (x : xr), j = Z.of_nat k ∧ (Fin <$> l) !! k = Some x ∧
                           equal x (Fin m : xr) = true ∧ pts !! k = Some p) →
  out ≠ [] ∧
  ∀ j v p, (j, v, p) ∈ out ↔
    v = Fin m ∧ ∃ k : nat, j = Z.of_nat k ∧ l !! k = Some m ∧ pts !! k = Some p.
Proof.
  intros Hm Hlen Hout.
  assert (∀ j v p, (j, v, p) ∈ out ↔
            v = Fin m ∧
            ∃ k : nat, j = Z.of_nat k ∧ l !! k = Some m ∧ pts !! k = Some p)
    as Hchar.
  { intros j v p. rewrite Hout, xr_times_one. split.
    - intros (-> & k & x & -> & Hx & Heq & Hp). split; [done|]. exists k.
      split; [done|]. split; [|done].
      rewrite list_lookup_fmap in Hx. destruct (l !! k) as [y|]; [|done].
      injection Hx as <-. apply xr_equal in Heq. by subst.
    - intros (-> & k & -> & Hk & Hp). split; [done|]. exists k, (Fin m).
      split; [done|]. split; [by rewrite list_lookup_fmap, Hk|].
      split; [by apply xr_equal|done]. }
  split; [|exact Hchar].
  apply list_elem_of_lookup in Hm as (k & Hk).
  destruct (lookup_lt_is_Some_2 pts k) as [p Hp].
  { apply lookup_lt_Some in Hk. lia. }
  intros Hnil. assert ((Z.of_nat k, Fin m : xr, p) ∈ out) as Hin.
  { apply Hchar. split; [done|]. by exists k. }
  rewrite Hnil in Hin. by apply elem_of_nil in Hin.
Qed.

(** X27. On finite real samples with maximum [M] and minimum [m], and
    with a pixel location for every sample, [maxima] returns the tuples
    [(k, M, point_loc[k])] of exactly the indices [k] whose sample is [M],
    and [minima] those of the indices whose sample is [m]; neither list is
    empty. *)
Theorem extrema_listing (self : LineScan xr) (x : R) (l : list R)
    (pts : list (Z * Z)) :
  samples self = Fin <$> (x :: l) → point_loc self = PyPoints pts →
  (length (x :: l) ≤ length pts)%nat →
  ∃ hi lo,
    maxima self = Return hi ∧ minima self = Return lo ∧ hi ≠ [] ∧ lo ≠ [] ∧
    (∀ j v p, (j, v, p) ∈ hi ↔
       v = Fin (real_max x l) ∧
       ∃ k : nat, j = Z.of_nat k ∧ (x :: l) !! k = Some (real_max x l) ∧
                  pts !! k = Some p) ∧
    (∀ j v p, (j, v, p) ∈ lo ↔
       v = Fin (real_min x l) ∧
       ∃ k : nat, j = Z.of_nat k ∧ (x :: l) !! k = Some (real_min x l) ∧
                  pts !! k = Some p).
Proof.
  intros Hs Hpts Hlen.
  assert (length (Fin <$> (x :: l) : list xr) ≤ length pts)%nat as Hlen'
    by (by rewrite length_fmap).
  destruct (extreme_listing (Fin <$> (x :: l) : list xr)
              (Fin (real_max x l)) pts Hlen') as (hi & Hhi & Hhi_char).
  destruct (extreme_listing (Fin <$> (x :: l) : list xr)
              (Fin (real_min x l)) pts Hlen') as (lo & Hlo & Hlo_char).
  destruct (finite_extreme_listing (x :: l) (real_max x l) pts hi
              (real_max_elem x l) Hlen Hhi_char) as [Hhi_ne Hhi_fin].
  destruct (finite_extreme_listing (x :: l) (real_min x l) pts lo
              (real_min_elem x l) Hlen Hlo_char) as [Hlo_ne Hlo_fin].
  exists hi, lo.
  split.
  { unfold maxima. rewrite Hs, np_max_finite, bind_Return, Hpts.
    unfold np_rows. rewrite bind_Return. exact Hhi. }
  split.
  { unfold minima. rewrite Hs, np_min_finite, bind_Return, Hpts.
    unfold np_rows. rewrite bind_Return. exact Hlo. }
  split; [exact Hhi_ne|]. split; [exact Hlo_ne|].
  split; [exact Hhi_fin|exact Hlo_fin].
Qed.

(** The samples [10, 100, 200, 40, 50] with their five pixel locations. *)
Lemma extrema_listing_witness :
  let pts := [(4, 7); (5, 7); (6, 7); (7, 7); (8, 7)] in
  samples probe_r = Fin <$> [10; 100; 200; 40; 50]%R ∧
  point_loc probe_r = PyPoints pts ∧
  (length [10; 100; 200; 40; 50]%R ≤ length pts)%nat ∧
  ∃ hi lo, maxima probe_r = Return hi ∧ minima probe_r = Return lo ∧
           hi ≠ [] ∧ lo ≠ [].
Proof.
  intros pts.
  assert (samples probe_r = Fin <$> [10; 100; 200; 40; 50]%R) as Hs
    by reflexivity.
  assert (point_loc probe_r = PyPoints pts) as Hpts by reflexivity.
  assert (length [10; 100; 200; 40; 50]%R ≤ length pts)%nat as Hlen
    by (simpl; lia).
  split; [exact Hs|]. split; [exact Hpts|]. split; [exact Hlen|].
  destruct (extrema_listing probe_r 10 [100; 200; 40; 50]%R pts Hs Hpts Hlen)
    as (hi & lo & Hhi & Hlo & Hhi_ne & Hlo_ne & _).
  by exists hi, lo.
Defined.

(** ** The discrete derivative *)








Section derivative_structure.
Context {V : Type} `{Num V} `{Compare V}.


End derivative_structure.



(** ** Mean, variance and deviation *)



Lemma len_positive (x : R) (l : list R) :
  IZR (Py.len (Fin <$> x :: l : list xr)) ≠ 0%R.
Proof.
  unfold Py.len. rewrite length_fmap. cbn [length].
  apply not_0_IZR. lia.
Qed.





(** ** What the peak finder reports *)

Lemma for_each_invariant {A S} (body : S → A → result S) (I : S → Prop)
    (s : S) (l : list A) :
  I s →
  (∀ s x, x ∈ l → I s → ∃ s', body s x = Return s' ∧ I s') →
  ∃ s', for_each body s l = Return s' ∧ I s'.
Proof.
  revert s. induction l as [|x l IH]; intros s Hs Hbody.
  - by exists s.
  - destruct (Hbody s x) as (s' & Hstep & Hs'); [by left|done|].
    cbn [for_each]. rewrite Hstep, bind_Return. apply IH; [done|].
    intros s'' y Hy. apply Hbody. by right.
Qed.

Lemma enumerate_lookup {A} (l : list A) (i : Z) (x : A) :
  (i, x) ∈ Py.enumerate l → 0 ≤ i ∧ l !! Z.to_nat i = Some x.
Proof.
  unfold Py.enumerate, Py.range. intros (n & Hn)%list_elem_of_lookup.
  apply lookup_zip_with_Some in Hn as (i' & x' & [= <- <-] & Hi & Hx).
  apply lookup_seqZ in Hi as [-> _]. split; [lia|].
  by rewrite Z.add_0_l, Nat2Z.id.
Qed.

Lemma py_max_returns {V} `{Num V} (l : list V) :
  l ≠ [] → ∃ m, py_max l = Return m.
Proof. destruct l; [done|]. intros _. by eexists. Qed.

(** X30. With a window of at least 2 the peak finder returns a list, and
    every pair [(pos, value)] in it is a sample of the line scan with its
    index: the position variable is always bound when a peak is recorded,
    because nothing is below the minus infinity the running maximum is
    reset to. *)
Theorem find_peaks_sound {F} `{Field F}
    (self : LineScan (num F)) (window : Z) (delta : num F) :
  2 ≤ window →
  ∃ peaks,
    find_peaks self window delta = Return peaks ∧
    Forall (λ pv, 0 ≤ pv.1 ∧ samples self !! Z.to_nat pv.1 = Some pv.2) peaks.
Proof.
  intros Hw. unfold find_peaks. cbv zeta.
  set (width := Z.quot window 2).
  set (I := λ st : num F * option Z * list (Z * num F),
         (st.1.1 = neg_inf ∨
          ∃ pos, st.1.2 = Some pos ∧ 0 ≤ pos ∧
                 samples self !! Z.to_nat pos = Some st.1.1) ∧
         Forall (λ pv, 0 ≤ pv.1 ∧ samples self !! Z.to_nat pv.1 = Some pv.2)
                st.2).
  destruct (for_each_invariant (peak_step self width delta) I
              (neg_inf, None, []) (Py.enumerate (samples self)))
    as ([[maximum max_pos] peaks] & Hloop & _ & Hpeaks).
  { split; [by left|constructor]. }
  { intros [[maximum max_pos] peaks] [i val] Hin [Hmax Hpeaks].
    cbn [fst snd] in Hmax, Hpeaks.
    pose proof (enumerate_index _ _ _ Hin) as Hi.
    apply enumerate_lookup in Hin as [Hi0 Hval].
    unfold peak_step.
    set (now := if lt maximum val then (val, Some i) else (maximum, max_pos)).
    assert (now.1 = neg_inf ∨
            ∃ pos, now.2 = Some pos ∧ 0 ≤ pos ∧
                   samples self !! Z.to_nat pos = Some now.1) as Hnow.
    { unfold now. destruct (lt maximum val); [|exact Hmax].
      right. by exists i. }
    destruct now as [maximum' max_pos']. cbn [fst snd] in Hnow.
    destruct (py_max_returns
                (Py.slice (samples self) (Some (Z.max 0 (i - width)))
                   (Some (i + width)))) as [m ->].
    { apply neighbourhood_nonempty; [by apply quot_2_ge_1|done]. }
    rewrite bind_Return.
    destruct (lt (add m delta) maximum') eqn:Hlt.
    - destruct Hnow as [->|(pos & -> & Hpos & Hlook)].
      { by rewrite nothing_below_neg_inf in Hlt. }
      eexists. split; [reflexivity|]. split; [by left|].
      cbn [fst snd]. apply Forall_app. split; [done|].
      by apply Forall_singleton.
    - eexists. split; [reflexivity|]. by split. }
  exists peaks. by rewrite Hloop.
Qed.

(** The samples [1, 9, 1, 1, 1, 1, 1] with window 2 and delta 1. *)
Lemma find_peaks_sound_witness :
  2 ≤ 2 ∧
  ∃ peaks,
    find_peaks (__init__ (int <$> [1; 9; 1; 1; 1; 1; 1]) []) 2 (int 1)
    = Return peaks ∧
    Forall (λ pv, 0 ≤ pv.1 ∧
                  (int <$> [1; 9; 1; 1; 1; 1; 1]) !! Z.to_nat pv.1 = Some pv.2)
           peaks.
Proof.
  assert (2 ≤ 2) as Hw by lia.
  split; [exact Hw|].
  exact (find_peaks_sound
           (__init__ (int <$> [1; 9; 1; 1; 1; 1; 1]) []) 2 (int 1) Hw).
Defined.
